(** * frei.twostream: two-stream radiative transfer, embedded in Rocq

    A shallow embedding of [src/frei/twostream.py] and proofs of the
    properties its specification states.

    ** Numbers

    The program computes with IEEE floats (JAX arrays, Python floats and
    astropy quantities). The embedding keeps the structure of that
    arithmetic and idealises its precision:

    - a finite float is a real number, and finite arithmetic is exact
      (no rounding, no overflow, no signed zero);
    - every non-finite float (NaN, +Inf, -Inf) is the single value
      [nonfinite]. It is produced where IEEE arithmetic leaves the finite
      numbers on exact operands: a division by zero, a logarithm of a
      non-positive number, a fractional power of a negative number.
      Arithmetic propagates it. A comparison with a non-finite operand is
      undetermined ([None]), because NaN and the infinities compare
      differently and the model does not tell them apart; a selection on an
      undetermined condition is [nonfinite].

    So a result [real r] of the model is the result of the code in exact
    arithmetic, reached without consuming any non-finite value; a result
    [nonfinite] says only that some non-finite value was consumed.

    Units ([astropy.units]) are outside the embedding: quantities are
    their numeric values in one consistent unit system, and a comparison
    with [0 * unit] is a comparison with zero. *)

From Stdlib Require Import Reals Lra Lia.
From Stdlib Require Strings.String.
From stdpp Require Import base list.

Open Scope R_scope.

(** ** Floats *)

Inductive fl : Type :=
| real (r : R)
| nonfinite.

Coercion real : R >-> fl.

Declare Scope fl_scope.
Delimit Scope fl_scope with fl.
Bind Scope fl_scope with fl.

Definition lift1 (f : R -> R) (a : fl) : fl :=
  match a with
  | real x => real (f x)
  | nonfinite => nonfinite
  end.

Definition lift2 (f : R -> R -> R) (a b : fl) : fl :=
  match a, b with
  | real x, real y => real (f x y)
  | _, _ => nonfinite
  end.

Definition fadd : fl -> fl -> fl := lift2 Rplus.
Definition fsub : fl -> fl -> fl := lift2 Rminus.
Definition fmul : fl -> fl -> fl := lift2 Rmult.
Definition fneg : fl -> fl := lift1 Ropp.
Definition fabs : fl -> fl := lift1 Rabs.
Definition fmin : fl -> fl -> fl := lift2 Rmin.

(** [x / y]: a zero divisor gives Inf or NaN. *)
Definition fdiv (a b : fl) : fl :=
  match a, b with
  | real x, real y => if Req_dec_T y 0 then nonfinite else real (x / y)
  | _, _ => nonfinite
  end.

(** [x ** n] for a literal integer exponent. *)
Definition fpow (a : fl) (n : nat) : fl := lift1 (fun x => x ^ n) a.

(** [x ** y] for a positive fractional exponent (the source uses 0.5, 0.9
    and 1.5): NaN on a negative base, zero at zero. *)
Definition fpowr (a : fl) (y : R) : fl :=
  match a with
  | real x =>
      if Rlt_dec 0 x then real (Rpower x y)
      else if Req_dec_T x 0 then real 0
      else nonfinite
  | nonfinite => nonfinite
  end.

Definition fexp : fl -> fl := lift1 exp.

(** [expm1 x = exp x - 1]. *)
Definition fexpm1 : fl -> fl := lift1 (fun x => exp x - 1).

(** [log x]: -Inf at zero, NaN below. *)
Definition flog (a : fl) : fl :=
  match a with
  | real x => if Rlt_dec 0 x then real (ln x) else nonfinite
  | nonfinite => nonfinite
  end.

Definition fgt (a b : fl) : option bool :=
  match a, b with
  | real x, real y => Some (if Rlt_dec y x then true else false)
  | _, _ => None
  end.

Definition feq (a b : fl) : option bool :=
  match a, b with
  | real x, real y => Some (if Req_dec_T x y then true else false)
  | _, _ => None
  end.

Definition fne (a b : fl) : option bool :=
  match a, b with
  | real x, real y => Some (if Req_dec_T x y then false else true)
  | _, _ => None
  end.

(** [jnp.where c a b] on one element: both [a] and [b] have been evaluated,
    one of them is selected. *)
Definition where_ (c : option bool) (a b : fl) : fl :=
  match c with
  | Some true => a
  | Some false => b
  | None => nonfinite
  end.

Arguments where_ (c a b)%_fl.

Notation "x + y" := (fadd x y) : fl_scope.
Notation "x - y" := (fsub x y) : fl_scope.
Notation "x * y" := (fmul x y) : fl_scope.
Notation "x / y" := (fdiv x y) : fl_scope.
Notation "- x" := (fneg x) : fl_scope.
Notation "x ^ n" := (fpow x n%nat) : fl_scope.
Notation "x ** y" := (fpowr x y%R)
  (at level 30, right associativity) : fl_scope.
Notation "x >? y" := (fgt x y) (at level 70, no associativity) : fl_scope.
Notation "x =? y" := (feq x y) (at level 70, no associativity) : fl_scope.
Notation "x <>? y" := (fne x y) (at level 70, no associativity) : fl_scope.

Definition is_real (a : fl) : Prop := exists r : R, a = real r.

Open Scope fl_scope.

(** ** Scattering correction term *)

(** [E(omega_0, g_0)], Deitrick et al. (2020) Equation 19. *)
Definition E (omega_0 g_0 : fl) : fl :=
  where_ (omega_0 >? 0.1)
    (1.225 - 0.1582 * g_0 - 0.1777 * omega_0 - 0.07465 * g_0 ^ 2
     + 0.2351 * omega_0 * g_0 - 0.05582 * omega_0 ^ 2)
    1.

(** ** Planck function *)

Definition true_fun (x : fl) : fl := (1.0 / x)%fl.

Definition false_fun (x : fl) : fl := 0.0.

(** Both operands are made safe before [true_fun] and [false_fun] are
    applied to them, and the result is selected afterwards. *)
Definition true_op (x : fl) : fl := where_ (x >? 0.0) x 0.5.

Definition false_op (x : fl) : fl := where_ (x >? 0.0) 0.0 x.

Definition vectorized_cond (x : fl) : fl :=
  where_ (x >? 0.0) (true_fun (true_op x)) (false_fun (false_op x)).

Definition BB (temperature wavenumber : fl) : fl :=
  let h : fl := 6.62607015e-34 in
  let c : fl := 299792458.0e6 in
  let k_B : fl := 1.380649e-23 in
  let one_over_denom :=
    vectorized_cond
      (fexpm1 (h * c / k_B * wavenumber * vectorized_cond temperature)) in
  (1e18 * 2 * h * c ^ 2 * wavenumber ^ 3 * one_over_denom)%fl.

(** [BB] on a wavenumber array, for one layer temperature. *)
Definition BB_array (temperature : fl) (wavenumber : list fl) : list fl :=
  map (BB temperature) wavenumber.

(** ** Bolometric flux *)

(** [jnp.diff x] *)
Definition diff (x : list fl) : list fl :=
  zip_with (fun x_k x_k1 => x_k1 - x_k) x (tail x).

(** [a.sum()] *)
Definition fsum (a : list fl) : fl := foldr fadd 0 a.

(** [jnp.trapz y x], the composite trapezoidal rule:
    [0.5 * (diff(x) * (y[1:] + y[:-1])).sum()]. The two arrays have the
    same length (JAX refuses others, which is outside this embedding). *)
Definition trapz (y x : list fl) : fl :=
  0.5 * fsum (zip_with fmul (diff x) (zip_with fadd (tail y) y)).

(** Bolometric flux from a wavelength-dependent flux. *)
Definition bolometric_flux (flux lam : list fl) : fl := trapz flux lam.

(** ** Two-stream flux propagator *)

(** The coefficients below are the local variables of [propagate_fluxes],
    in the order the function computes them. *)

(** Transmission, Deitrick et al. (2020) Equation B2. *)
Definition T (omega_0 g_0 delta_tau : fl) : fl :=
  fexp (-2 * (E omega_0 g_0 * (E omega_0 g_0 - omega_0) *
              (1 - omega_0 * g_0)) ** 0.5 * delta_tau).

(** Malik et al. (2017) Equation 13. *)
Definition zeta_plus (omega_0 g_0 : fl) : fl :=
  0.5 * (1 + ((E omega_0 g_0 - omega_0) / E omega_0 g_0 /
              (1 - omega_0 * g_0)) ** 0.5).

Definition zeta_minus (omega_0 g_0 : fl) : fl :=
  0.5 * (1 - ((E omega_0 g_0 - omega_0) / E omega_0 g_0 /
              (1 - omega_0 * g_0)) ** 0.5).

(** Malik et al. (2017) Equation 12. *)
Definition chi (omega_0 g_0 delta_tau : fl) : fl :=
  zeta_minus omega_0 g_0 ^ 2 * T omega_0 g_0 delta_tau ^ 2
  - zeta_plus omega_0 g_0 ^ 2.

Definition xi (omega_0 g_0 delta_tau : fl) : fl :=
  zeta_plus omega_0 g_0 * zeta_minus omega_0 g_0 *
  (1 - T omega_0 g_0 delta_tau ^ 2).

Definition psi (omega_0 g_0 delta_tau : fl) : fl :=
  (zeta_minus omega_0 g_0 ^ 2 - zeta_plus omega_0 g_0 ^ 2) *
  T omega_0 g_0 delta_tau.

Definition pi (omega_0 g_0 : fl) : fl :=
  PI * (1 - omega_0) / (E omega_0 g_0 - omega_0).

(** The divisor [x] of the derivative in depth. *)
Definition Bprime_x (delta_tau : fl) : fl :=
  where_ (delta_tau =? 0.0) 1.0 delta_tau.

(** Malik et al. (2017) Equation 5. *)
Definition Bprime (B1 B2 delta_tau : fl) : fl :=
  where_ (delta_tau =? 0) 0 ((B1 - B2) / Bprime_x delta_tau).

(** One wavelength of [propagate_fluxes]; the argument [eps] of the source
    is not used by it and is left out. *)
Definition propagate_fluxes
    (lam F_1_up F_2_down T_1 T_2 delta_tau omega_0 g_0 : fl) : fl * fl :=
  let T := T omega_0 g_0 delta_tau in
  let chi := chi omega_0 g_0 delta_tau in
  let xi := xi omega_0 g_0 delta_tau in
  let psi := psi omega_0 g_0 delta_tau in
  let pi := pi omega_0 g_0 in
  let wavenumber := 1.0 / lam in
  let B1 := BB T_1 wavenumber in
  let B2 := BB T_2 wavenumber in
  let Bprime := Bprime B1 B2 delta_tau in
  (* Deitrick 2022 Eqn B4 *)
  let F_2_up :=
    1 / chi * (
      psi * F_1_up - xi * F_2_down +
      pi * (B2 * (chi + xi) - psi * B1 +
            Bprime / (2 * E omega_0 g_0 * (1 - omega_0 * g_0)) *
            (chi - psi - xi))) in
  let F_1_down :=
    1 / chi * (
      psi * F_2_down - xi * F_1_up +
      pi * (B1 * (chi + xi) - psi * B2 +
            Bprime / (2 * E omega_0 g_0 * (1 - omega_0 * g_0)) *
            (xi + psi - chi))) in
  (F_2_up, F_1_down).

(** Element [j] of a flux or wavelength array. *)
Definition elem (a : list fl) (j : nat) : fl := default nonfinite (a !! j).

(** [propagate_fluxes] on arrays over the wavelength axis: [lam], the two
    fluxes and [delta_tau] have the length of [lam], the temperatures and
    the scattering parameters are scalars. *)
Definition propagate_fluxes_array
    (lam F_1_up F_2_down : list fl) (T_1 T_2 : fl) (delta_tau : list fl)
    (omega_0 g_0 : fl) : list fl * list fl :=
  let out j :=
    propagate_fluxes (elem lam j) (elem F_1_up j) (elem F_2_down j)
      T_1 T_2 (elem delta_tau j) omega_0 g_0 in
  (map (fun j => fst (out j)) (seq 0 (length lam)),
   map (fun j => snd (out j)) (seq 0 (length lam))).

(** ** Layer geometry, convection and the equilibrium timestep *)

Section Thermodynamics.

(** [astropy.constants]: Boltzmann constant, proton mass and
    Stefan-Boltzmann constant. *)
Variables k_B m_p sigma_sb : R.

(** The default of the argument [m_bar]. *)
Definition m_bar_default : fl := 2.4 * m_p.

(** The default of the argument [n_dof]. *)
Definition n_dof_default : fl := 5.

(** Malik et al. (2017) Equation 18. *)
Definition delta_z_i (temperature_i pressure_i pressure_ip1 g m_bar : fl)
  : fl :=
  (k_B * temperature_i) / (m_bar * g) * flog (pressure_i / pressure_ip1).

(** Heat capacity, Malik et al. (2017) Equation 25. *)
Definition c_p (m_bar n_dof : fl) : fl :=
  (2 + n_dof) / (2 * m_bar) * k_B.

(** Local density. *)
Definition rho_p (p_1 p_2 T_1 g m_bar : fl) : fl :=
  ((p_1 - p_2) / g) / delta_z_i T_1 p_1 p_2 g m_bar.

(** Change in temperature with height. *)
Definition gamma
    (temperature_i temperature_ip1 pressure_i pressure_ip1 g m_bar : fl)
  : fl :=
  (temperature_i - temperature_ip1) /
  delta_z_i temperature_i pressure_i pressure_ip1 g m_bar.

Definition gamma_adiabatic (g m_bar n_dof : fl) : fl :=
  g / c_p m_bar n_dof.

Definition delta_gamma
    (temperature_i temperature_ip1 pressure_i pressure_ip1 g
     m_bar n_dof : fl) : fl :=
  gamma temperature_i temperature_ip1 pressure_i pressure_ip1 g m_bar
  - gamma_adiabatic g m_bar n_dof.

Definition mixing_length (T_1 g alpha m_bar : fl) : fl :=
  alpha * k_B * T_1 / (m_bar * g).

Definition convective_flux
    (temperature_i temperature_ip1 pressure_i pressure_ip1 g
     m_bar n_dof alpha : fl) : fl :=
  let rho := rho_p pressure_i pressure_ip1 temperature_i g m_bar in
  let cp := c_p m_bar n_dof in
  let lmix := mixing_length temperature_i g alpha m_bar in
  let delta_g :=
    delta_gamma temperature_i temperature_ip1 pressure_i pressure_ip1
      g m_bar n_dof in
  match (delta_g >? 0)%fl with
  | Some true =>
      rho * cp * lmix ^ 2 * (g / temperature_i) ** 0.5 * delta_g ** 1.5
  | Some false => 0
  | None => nonfinite
  end.

(** Timestep of the iteration for radiative equilibrium, Malik et al.
    (2017) Equations 27 and 28. *)
Definition delta_t_i
    (p_1 p_2 T_1 T_2 delta_F_i_dz g m_bar n_dof : fl) : fl :=
  let dz := delta_z_i T_1 p_1 p_2 g m_bar in
  (* Malik 2017 Eqn 28 *)
  match (delta_F_i_dz * dz <>? 0)%fl with
  | None => nonfinite
  | Some nonzero =>
      let f_i_pre : fl :=
        if nonzero then 1e5 / fabs (delta_F_i_dz * dz) ** 0.9 else 1 in
      (* Malik 2017 Eqn 27 *)
      let dt_radiative :=
        c_p m_bar n_dof * p_1 / sigma_sb / g / T_1 ^ 3 in
      let d_gamma := delta_gamma T_1 T_2 p_1 p_2 g m_bar n_dof in
      match (d_gamma >? 0)%fl with
      | Some true =>
          let dt_convective := (T_1 / g / d_gamma) ** 0.5 in
          f_i_pre * fmin dt_radiative dt_convective
      | Some false => f_i_pre * dt_radiative
      | None => nonfinite
      end
  end.

(** Malik et al. (2017) Equation 23; returns the divergence and [dz]. *)
Definition div_bol_net_flux
    (F_ip1_u F_ip1_d F_i_u F_i_d temperature_i temperature_ip1
     pressure_i pressure_ip1 g m_bar n_dof alpha : fl) : fl * fl :=
  let delta_F_rad := (F_ip1_u - F_ip1_d) - (F_i_u - F_i_d) in
  let delta_F_conv :=
    convective_flux temperature_i temperature_ip1 pressure_i pressure_ip1
      g m_bar n_dof alpha in
  let dz := delta_z_i temperature_i pressure_i pressure_ip1 g m_bar in
  ((delta_F_rad + delta_F_conv) / dz, dz).

(** Change in temperature of a layer after a timestep, Malik et al. (2017)
    Equation 24. *)
Definition delta_temperature
    (div p_1 p_2 T_1 delta_t_i g m_bar n_dof : fl) : fl :=
  1 / rho_p p_1 p_2 T_1 g m_bar / c_p m_bar n_dof * div * delta_t_i.

End Thermodynamics.

(** Contribution of layer [i] to the optical depth, Malik et al. (2017)
    Equation 19. *)
Definition delta_tau_i (kappa_i p_1 p_2 g : fl) : fl :=
  (p_1 - p_2) / g * kappa_i.

(** ** Emission driver *)

(** Arrays are lists, two-dimensional arrays lists of rows. Under [jit] an
    index that is out of bounds is clamped to the last element when an
    element is read, and an update at such an index is dropped (which is
    what [<[i:=v]>] does). *)
Definition getc {A : Type} (d : A) (a : list A) (i : nat) : A :=
  default d (a !! (i `min` (length a - 1))%nat).

Definition zeros (n m : nat) : list (list fl) :=
  replicate n (replicate m (real 0)).

(** [lax.fori_loop lower upper body_fun init_val]. *)
Definition fori_loop {A : Type} (lower upper : nat) (body_fun : nat -> A -> A)
    (init_val : A) : A :=
  foldl (fun val i => body_fun i val) init_val (seq lower (upper - lower)).

Section Emit.

(** [jnp.interp x xp fp], linear interpolation in a table of finite
    values. *)
Variable interp : R -> list R -> list R -> R.

Variable offline_opacities : list (list (list R)).
Variables temperatures pressures lam : list R.
Variable F_TOA : list R.
Variable g : R.
Variable opacity_grid_temperatures : list R.

(** [offline_opacities[i, :, j]] *)
Definition op (i j : nat) : list R :=
  map (fun row => getc 0%R row j) (getc [] offline_opacities i).

(** [lax.scan(interp_over_T, 0.0, temps)[1]]: the opacity of layer [i] at
    wavelength [j], interpolated at every temperature of [temps]. *)
Definition outer (i j : nat) : list R :=
  map (fun x => interp x opacity_grid_temperatures (op i j)) temperatures.

(** [lax.scan(outer, 0.0, jnp.arange(len(lam)))[1][:, 0]] *)
Definition kappa_interp (i : nat) : list fl :=
  map (fun j => real (getc 0%R (outer i j) 0)) (seq 0 (length lam)).

Definition body_fun (i : nat) (fluxes : list (list fl)) : list (list fl) :=
  let fluxes_up := take (length fluxes / 2)%nat fluxes in
  let fluxes_down := drop (length fluxes / 2)%nat fluxes in
  let p_2 := getc 0%R pressures (i + 1) in
  let T_2 := getc 0%R temperatures (i + 1) in
  let p_1 := getc 0%R pressures i in
  let T_1 := getc 0%R temperatures i in
  let kappa_interp_i := kappa_interp i in
  let delta_tau :=
    map (fun kappa_i => delta_tau_i kappa_i p_1 p_2 g) kappa_interp_i in
  (* Single scattering albedo, Deitrick (2020) Eqn 17 *)
  let omega_0 := 0.0 in
  let F_2_down := getc [] fluxes_down (i + 1) in
  let F_1_up := getc [] fluxes_up i in
  let '(F_2_up, F_1_down) :=
    propagate_fluxes_array (map real lam) F_1_up F_2_down T_1 T_2
      delta_tau omega_0 0 in
  <[(i + 1)%nat := F_2_up]> fluxes_up ++ <[i := F_1_down]> fluxes_down.

(** The values that [emit] computes. The inputs are finite numbers, and
    [F_TOA] is the row that the incident flux gives, one entry per
    wavelength; the errors that the array library raises on an empty axis
    or on shapes that do not fit are those of [emit_call] below. The
    arguments [m_bar] and [alpha] of the source are not used by it and are
    left out. *)
Definition emit : list (list fl) * list (list fl) :=
  let n_layers := length pressures in
  let n_wavelengths := length lam in
  let fluxes_up := zeros n_layers n_wavelengths in
  let fluxes_down := zeros n_layers n_wavelengths in
  let fluxes_down := <[(n_layers - 1)%nat := map real F_TOA]> fluxes_down in
  let res := fori_loop 1 n_layers body_fun (fluxes_up ++ fluxes_down) in
  (take (length res / 2)%nat res, drop (length res / 2)%nat res).

End Emit.

Close Scope fl_scope.

(** * Vocabulary of the statements *)

(** ** Values on finite arguments, and the formulas of the specification *)

(** The value of [E] on finite arguments. *)
Definition E_value (omega_0 g_0 : R) : R :=
  if Rlt_dec 0.1 omega_0 then
    1.225 - 0.1582 * g_0 - 0.1777 * omega_0 - 0.07465 * g_0 ^ 2
    + 0.2351 * omega_0 * g_0 - 0.05582 * omega_0 ^ 2
  else 1.

(** The value of [BB] on finite arguments. *)
Definition BB_value (temperature wavenumber : R) : R :=
  let h := 6.62607015e-34 in
  let c := 299792458.0e6 in
  let k_B := 1.380649e-23 in
  let v x := if Rlt_dec 0 x then 1 / x else 0 in
  1e18 * 2 * h * c ^ 2 * wavenumber ^ 3 *
  v (exp (h * c / k_B * wavenumber * v temperature) - 1).

(** The domain on which the closed forms of the coefficients are defined:
    the physical ranges of the three parameters, away from the points
    where a radicand is negative or a denominator vanishes. *)
Definition physical_domain (omega_0 g_0 delta_tau : R) : Prop :=
  0 <= omega_0 <= 1 /\ -1 <= g_0 <= 1 /\ 0 <= delta_tau /\
  omega_0 * g_0 < 1 /\ omega_0 < E_value omega_0 g_0.

(** The coefficients as the specification writes them. *)
Definition spec_zeta (sign omega_0 g_0 : R) : R :=
  let e := E_value omega_0 g_0 in
  (1 + sign * sqrt ((e - omega_0) / e / (1 - omega_0 * g_0))) / 2.

Definition spec_T (omega_0 g_0 delta_tau : R) : R :=
  let e := E_value omega_0 g_0 in
  exp (-2 * sqrt (e * (e - omega_0) * (1 - omega_0 * g_0)) * delta_tau).

(** The sum of the trapezoids under [y] over the grid [x], twice. *)
Fixpoint trapezoids (y x : list R) : R :=
  match y, x with
  | y_k :: (y_k1 :: _) as y', x_k :: (x_k1 :: _) as x' =>
      (x_k1 - x_k) * (y_k1 + y_k) + trapezoids y' x'
  | _, _ => 0
  end.

(** A grid that does not decrease. *)
Fixpoint nondecreasing (x : list R) : Prop :=
  match x with
  | x_k :: (x_k1 :: _) as x' => x_k <= x_k1 /\ nondecreasing x'
  | _ => True
  end.

Section ThermodynamicsValues.

Variables k_B sigma_sb : R.

(** A layer pair of a well-formed column: positive temperature, gravity
    and mean molecular mass, and a pressure that decreases upwards. *)
Definition layer_pair (T_i p_i p_ip1 g m_bar n_dof : R) : Prop :=
  0 < T_i /\ 0 < p_ip1 < p_i /\ 0 < g /\ 0 < m_bar /\ 0 <= n_dof.

Definition dz_value (T_i p_i p_ip1 g m_bar : R) : R :=
  k_B * T_i / (m_bar * g) * ln (p_i / p_ip1).

Definition cp_value (m_bar n_dof : R) : R :=
  (2 + n_dof) / (2 * m_bar) * k_B.

Definition rho_value (T_i p_i p_ip1 g m_bar : R) : R :=
  (p_i - p_ip1) / g / dz_value T_i p_i p_ip1 g m_bar.

Definition lmix_value (T_i g alpha m_bar : R) : R :=
  alpha * k_B * T_i / (m_bar * g).

(** The local lapse rate [Gamma] and the adiabatic one [Gamma_ad]. *)
Definition Gamma (T_i T_ip1 p_i p_ip1 g m_bar : R) : R :=
  (T_i - T_ip1) / dz_value T_i p_i p_ip1 g m_bar.

Definition Gamma_ad (g m_bar n_dof : R) : R := g / cp_value m_bar n_dof.

(** The mixing-length flux
    [rho c_p l_mix^2 sqrt(g / T) (Gamma - Gamma_ad)^1.5]. *)
Definition mixing_length_flux
    (T_i T_ip1 p_i p_ip1 g m_bar n_dof alpha : R) : R :=
  rho_value T_i p_i p_ip1 g m_bar * cp_value m_bar n_dof *
  lmix_value T_i g alpha m_bar ^ 2 * sqrt (g / T_i) *
  Rpower (Gamma T_i T_ip1 p_i p_ip1 g m_bar
          - Gamma_ad g m_bar n_dof) 1.5.

(** The radiative timescale [c_p p / (sigma_SB g T^3)]. *)
Definition dt_radiative_value (p_1 T_1 g m_bar n_dof : R) : R :=
  cp_value m_bar n_dof * p_1 / sigma_sb / g / T_1 ^ 3.

(** The radiative timescale, capped by the convective timescale
    [sqrt(T / (g dgamma))] where the lapse-rate excess is positive. *)
Definition dt_capped (p_1 p_2 T_1 T_2 g m_bar n_dof : R) : R :=
  let d_gamma :=
    Gamma T_1 T_2 p_1 p_2 g m_bar - Gamma_ad g m_bar n_dof in
  if Rlt_dec 0 d_gamma then
    Rmin (dt_radiative_value p_1 T_1 g m_bar n_dof) (sqrt (T_1 / g / d_gamma))
  else dt_radiative_value p_1 T_1 g m_bar n_dof.

(** The pre-factor of the code, Malik et al. (2017) Equation 28: its
    argument is the flux difference [delta_F_i_dz * dz] across the layer. *)
Definition f_i_pre_value (delta_F : R) : R :=
  if Req_dec_T delta_F 0 then 1 else 1e5 / Rpower (Rabs delta_F) 0.9.

(** The pre-factor as the specification words it,
    [(1e5 / |dF/dz|)^0.9]. *)
Definition spec_f_i_pre (delta_F_i_dz : R) : R :=
  if Req_dec_T delta_F_i_dz 0 then 1
  else Rpower (1e5 / Rabs delta_F_i_dz) 0.9.

Definition spec_delta_t_i (p_1 p_2 T_1 T_2 delta_F_i_dz g m_bar n_dof : R)
  : R :=
  spec_f_i_pre delta_F_i_dz * dt_capped p_1 p_2 T_1 T_2 g m_bar n_dof.

End ThermodynamicsValues.

(** A thin hot layer in SI units: 1000 K, a pressure step of 1 Pa at
    10^6 Pa, gravity 10 m/s^2, a mean molecular mass of 4e-27 kg and the
    CODATA values of the two constants. *)
Definition ex_k_B : R := 1.380649e-23.
Definition ex_sigma_sb : R := 5.670374419e-8.
Definition ex_m_bar : R := 4e-27.

(** ** The state of the layer loop *)

Section EmitValues.

Variable interp : R -> list R -> list R -> R.
Variable offline_opacities : list (list (list R)).
Variables temperatures pressures lam : list R.
Variable F_TOA : list R.
Variable g : R.
Variable opacity_grid_temperatures : list R.

Let n_layers : nat := length pressures.
Let n_wavelengths : nat := length lam.

(** The optical depth increments of layer [i], one per wavelength. *)
Definition layer_delta_tau (i : nat) : list fl :=
  map (fun kappa_i =>
         delta_tau_i kappa_i (real (getc 0 pressures i))
           (real (getc 0 pressures (i + 1))) (real g))
    (kappa_interp interp offline_opacities temperatures lam
       opacity_grid_temperatures i).

(** The two rows that iteration [i] computes. *)
Definition layer_step (i : nat) (up down : list (list fl))
  : list fl * list fl :=
  propagate_fluxes_array (map real lam) (getc [] up i) (getc [] down (i + 1))
    (real (getc 0 temperatures i)) (real (getc 0 temperatures (i + 1)))
    (layer_delta_tau i) (real 0.0) (real 0).

(** The state of the loop: two arrays of [n_layers] rows, stacked; the
    two bottom rows of [fluxes_up] are zero. *)
Definition flux_shape (fluxes up down : list (list fl)) : Prop :=
  fluxes = up ++ down /\
  length up = n_layers /\ length down = n_layers /\
  (forall k, (k < 2)%nat -> up !! k = zeros n_layers n_wavelengths !! k).

(** Every row has [n_wavelengths] entries. *)
Definition flux_rows (up down : list (list fl)) : Prop :=
  Forall (fun row => length row = n_wavelengths) up /\
  Forall (fun row => length row = n_wavelengths) down.

(** A row of finite fluxes, one per wavelength. *)
Definition finite_row (n : nat) (row : list fl) : Prop :=
  length row = n /\ Forall is_real row.

(** The invariant of the loop: every flux is finite, and the top row of
    [fluxes_down] holds the incident flux. *)
Definition boundary_invariant (up down : list (list fl)) : Prop :=
  Forall (finite_row n_wavelengths) up /\
  Forall (finite_row n_wavelengths) down /\
  down !! (n_layers - 1)%nat = Some (map real F_TOA).

(** Arrays of finite fluxes, one row per layer. *)
Definition finite_fluxes (a : list (list fl)) : Prop :=
  Forall (finite_row n_wavelengths) a.

(** Two passes that differ in the incident flux only: before iteration
    [i], the two states have the same [fluxes_up], and the same rows of
    [fluxes_down] below the top row, up to the row that iteration
    [n_layers - 2] writes. *)
Definition same_below (i : nat) (a b : list (list fl)) : Prop :=
  exists up down1 down2,
    a = up ++ down1 /\ b = up ++ down2 /\
    length up = n_layers /\ length down1 = n_layers /\
    length down2 = n_layers /\
    finite_fluxes up /\ finite_fluxes down1 /\ finite_fluxes down2 /\
    forall k, (k + 2 < n_layers \/ (k + 2 = n_layers /\ i <= k))%nat ->
              down1 !! k = down2 !! k.

End EmitValues.

(** ** A call of [emit] *)

(** How a call ends: with a value, or with an error raised to the caller. *)
Inductive outcome (A : Type) : Type :=
| Returns (a : A)
| Raises (message : String.string).

Arguments Returns {A} a.
Arguments Raises {A} message.

(** The classes of the errors that the array library raises. *)
Module Errors.
Import Strings.String.
Definition IndexError : string := "IndexError".
Definition ValueError : string := "ValueError".
End Errors.

(** [x.at[i].set(y)] broadcasts [y] to the row that it replaces: [y] has
    the length of the row, or one entry that fills the row. *)
Definition broadcast_row (n : nat) (y : list R) : option (list R) :=
  if decide (length y = n) then Some y
  else match y with
       | [y_0] => Some (replicate n y_0)
       | _ => None
       end.

(** The shape of a three-dimensional array, read off its first rows (in an
    array all rows along an axis have the same length). *)
Definition shape (a : list (list (list R))) : nat * nat * nat :=
  (length a, length (getc [] a 0), length (getc [] (getc [] a 0) 0)).

(** [emit] has no [raise] and no assertion, and checks none of its
    arguments. A call fails where an operation of the array library does,
    while the function and the body of its loop are traced, which happens
    once, also for a loop without iterations:
    - an integer index, given or computed, into an axis of size zero raises
      IndexError: [fluxes_down.at[-1]] (line 361), [temps[i + 1]]
      (line 375) and [offline_opacities[i, :, j]] (line 390);
    - [.set(F_TOA)] (line 361) raises ValueError if [F_TOA] does not
      broadcast to a row;
    - [jnp.interp] (line 396) raises ValueError unless the grid and the
      table column have the same length.
    Otherwise the call returns the two flux arrays. *)
Definition emit_call (interp : R -> list R -> list R -> R)
    (offline_opacities : list (list (list R)))
    (temperatures pressures lam F_TOA : list R) (g : R)
    (opacity_grid_temperatures : list R)
  : outcome (list (list fl) * list (list fl)) :=
  let n_layers := length pressures in
  let n_wavelengths := length lam in
  let '(n_0, n_1, n_2) := shape offline_opacities in
  if decide (n_layers = 0)%nat then Raises Errors.IndexError
  else
    match broadcast_row n_wavelengths F_TOA with
    | None => Raises Errors.ValueError
    | Some row =>
        if decide (length temperatures = 0)%nat then Raises Errors.IndexError
        else if decide (n_0 = 0 \/ n_2 = 0)%nat then Raises Errors.IndexError
        else if decide (length opacity_grid_temperatures = n_1) then
          Returns (emit interp offline_opacities temperatures pressures lam
                     row g opacity_grid_temperatures)
        else Raises Errors.ValueError
    end.

(** The inputs that the array operations accept: no axis that is indexed
    is empty, [F_TOA] broadcasts to a row, and the temperature grid has one
    entry per row of a layer's opacity table. Neither the order of the
    pressures nor the number of temperatures, of layers of the table or of
    its wavelengths is compared with anything. *)
Definition arrays_accepted (offline_opacities : list (list (list R)))
    (temperatures pressures lam F_TOA opacity_grid_temperatures : list R)
  : Prop :=
  let '(n_0, n_1, n_2) := shape offline_opacities in
  (1 <= length pressures)%nat /\
  (length F_TOA = length lam \/ length F_TOA = 1%nat) /\
  (1 <= length temperatures)%nat /\
  (1 <= n_0)%nat /\ (1 <= n_2)%nat /\
  length opacity_grid_temperatures = n_1.

(** The row that [F_TOA] gives in the flux arrays. *)
Definition incident_row (n_wavelengths : nat) (F_TOA : list R) : list R :=
  default F_TOA (broadcast_row n_wavelengths F_TOA).

(** Pressures that strictly decrease with the layer index. *)
Fixpoint strictly_decreasing (pressures : list R) : Prop :=
  match pressures with
  | p_i :: (p_ip1 :: _) as above => p_ip1 < p_i /\ strictly_decreasing above
  | _ => True
  end.

(** The invariants of the data model: at least two layers, a strictly
    decreasing pressure grid, one temperature per layer, positive
    wavelengths, one incident flux per wavelength, and an opacity table
    with one entry per layer, grid temperature and wavelength. *)
Definition data_invariants (offline_opacities : list (list (list R)))
    (temperatures pressures lam F_TOA opacity_grid_temperatures : list R)
  : Prop :=
  (2 <= length pressures)%nat /\
  strictly_decreasing pressures /\
  length temperatures = length pressures /\
  Forall (fun l => 0 < l) lam /\
  length F_TOA = length lam /\
  length offline_opacities = length pressures /\
  Forall (fun table =>
            length table = length opacity_grid_temperatures /\
            Forall (fun row => length row = length lam) table)
         offline_opacities.

(** * Properties *)

(** ** Float arithmetic on finite operands *)

Ltac fl_simpl :=
  cbn [fadd fsub fmul fneg fabs fmin fpow fexp fexpm1 lift1 lift2 where_
       fst snd].

Lemma real_inj (x y : R) : real x = real y -> x = y.
Proof. now intros [= ->]. Qed.

Lemma real_eq (x y : R) : x = y -> real x = real y.
Proof. now intros ->. Qed.

Lemma fdiv_real (x y : R) : y <> 0 -> (real x / real y)%fl = real (x / y).
Proof.
  intros Hy. unfold fdiv. destruct (Req_dec_T y 0) as [e | _]; [ | reflexivity].
  contradiction.
Qed.

Lemma fdiv_zero (x : R) : (real x / real 0)%fl = nonfinite.
Proof.
  unfold fdiv. destruct (Req_dec_T 0 0) as [_ | n]; [reflexivity | ].
  now contradiction n.
Qed.

(** A non-finite operand gives a non-finite result. *)
Lemma lift2_nonfinite_r (f : R -> R -> R) (a : fl) :
  lift2 f a nonfinite = nonfinite.
Proof. now destruct a. Qed.

Lemma fgt_true (x y : R) : y < x -> (real x >? real y)%fl = Some true.
Proof.
  intros H. unfold fgt. destruct (Rlt_dec y x); [reflexivity | contradiction].
Qed.

Lemma fgt_false (x y : R) : x <= y -> (real x >? real y)%fl = Some false.
Proof.
  intros H. unfold fgt. destruct (Rlt_dec y x); [lra | reflexivity].
Qed.

Lemma feq_true (x y : R) : x = y -> (real x =? real y)%fl = Some true.
Proof.
  intros H. unfold feq. destruct (Req_dec_T x y); [reflexivity | contradiction].
Qed.

Lemma feq_false (x y : R) : x <> y -> (real x =? real y)%fl = Some false.
Proof.
  intros H. unfold feq. destruct (Req_dec_T x y); [contradiction | reflexivity].
Qed.

Lemma fne_true (x y : R) : x <> y -> (real x <>? real y)%fl = Some true.
Proof.
  intros H. unfold fne. destruct (Req_dec_T x y); [contradiction | reflexivity].
Qed.

Lemma fne_false (x y : R) : x = y -> (real x <>? real y)%fl = Some false.
Proof.
  intros H. unfold fne. destruct (Req_dec_T x y); [reflexivity | contradiction].
Qed.

Lemma fpowr_pos (x y : R) : 0 < x -> (real x ** y)%fl = real (Rpower x y).
Proof.
  intros H. unfold fpowr. destruct (Rlt_dec 0 x); [reflexivity | contradiction].
Qed.

Lemma fpowr_zero (y : R) : (real 0 ** y)%fl = real 0.
Proof.
  unfold fpowr. destruct (Rlt_dec 0 0) as [H | _]; [lra | ].
  destruct (Req_dec_T 0 0) as [_ | n]; [reflexivity | now contradiction n].
Qed.

Lemma flog_pos (x : R) : 0 < x -> flog (real x) = real (ln x).
Proof.
  intros H. unfold flog. destruct (Rlt_dec 0 x); [reflexivity | contradiction].
Qed.

(** [x ** 0.5] is the square root wherever it is finite. *)
Lemma fpowr_half (x : R) : 0 <= x -> (real x ** 0.5)%fl = real (sqrt x).
Proof.
  intros [H | <-].
  - rewrite fpowr_pos by assumption. apply real_eq.
    replace 0.5 with (/ 2) by lra. now apply Rpower_sqrt.
  - rewrite fpowr_zero. now rewrite sqrt_0.
Qed.

Lemma Rpower_pos (x y : R) : 0 < Rpower x y.
Proof. unfold Rpower. apply exp_pos. Qed.

(** ** Scattering correction term *)

Lemma E_real (omega_0 g_0 : R) : E omega_0 g_0 = real (E_value omega_0 g_0).
Proof.
  unfold E, E_value, fgt. destruct (Rlt_dec 0.1 omega_0); reflexivity.
Qed.

(** C6. For [omega_0 <= 0.1] and every [g_0] in [[-1, 1]], [E] is exactly 1;
    for [omega_0 > 0.1] it is the quadratic polynomial
    [1.225 - 0.1582 g_0 - 0.1777 omega_0 - 0.07465 g_0^2
     + 0.2351 omega_0 g_0 - 0.05582 omega_0^2]. *)
Theorem E_piecewise (omega_0 g_0 : R) :
  (omega_0 <= 0.1 -> -1 <= g_0 <= 1 -> E omega_0 g_0 = real 1) /\
  (0.1 < omega_0 ->
   E omega_0 g_0 =
   real (1.225 - 0.1582 * g_0 - 0.1777 * omega_0 - 0.07465 * g_0 ^ 2
         + 0.2351 * omega_0 * g_0 - 0.05582 * omega_0 ^ 2)).
Proof.
  rewrite E_real. unfold E_value. split.
  - intros Hle _. destruct (Rlt_dec 0.1 omega_0); [lra | reflexivity].
  - intros Hgt. destruct (Rlt_dec 0.1 omega_0); [reflexivity | contradiction].
Qed.

Lemma E_piecewise_witness :
  E 0.1 (-1) = real 1 /\
  E 0.5 1 =
  real (1.225 - 0.1582 * 1 - 0.1777 * 0.5 - 0.07465 * 1 ^ 2
        + 0.2351 * 0.5 * 1 - 0.05582 * 0.5 ^ 2).
Proof.
  split.
  - apply (proj1 (E_piecewise 0.1 (-1))); lra.
  - apply (proj2 (E_piecewise 0.5 1)); lra.
Defined.

(** ** Planck function *)

Lemma true_op_real (x : R) :
  true_op x = real (if Rlt_dec 0 x then x else 0.5).
Proof.
  unfold true_op, fgt.
  replace 0.0 with 0 by lra.
  destruct (Rlt_dec 0 x); reflexivity.
Qed.

Lemma vectorized_cond_real (x : R) :
  vectorized_cond x = real (if Rlt_dec 0 x then 1 / x else 0).
Proof.
  unfold vectorized_cond. rewrite true_op_real.
  unfold true_fun, false_fun, fgt.
  replace 0.0 with 0 by lra. replace 1.0 with 1 by lra.
  destruct (Rlt_dec 0 x) as [Hx | Hx]; cbn [where_].
  - apply fdiv_real. lra.
  - reflexivity.
Qed.

Lemma BB_real (temperature wavenumber : R) :
  BB temperature wavenumber = real (BB_value temperature wavenumber).
Proof.
  unfold BB, BB_value. cbv zeta.
  rewrite vectorized_cond_real. fl_simpl.
  rewrite fdiv_real by lra. fl_simpl.
  rewrite vectorized_cond_real. fl_simpl. reflexivity.
Qed.

Lemma BB_value_cold (temperature wavenumber : R) :
  temperature <= 0 -> BB_value temperature wavenumber = 0.
Proof.
  intros HT. unfold BB_value. cbv zeta.
  destruct (Rlt_dec 0 temperature) as [H | _]; [lra | ].
  rewrite Rmult_0_r, exp_0.
  destruct (Rlt_dec 0 (1 - 1)) as [H | _]; lra.
Qed.

Lemma BB_value_zero_wavenumber (temperature : R) : BB_value temperature 0 = 0.
Proof.
  unfold BB_value. cbv zeta.
  replace (0 ^ 3) with 0 by (simpl; lra).
  now rewrite !Rmult_0_r, Rmult_0_l.
Qed.

(** The operand handed to the reciprocal is positive at every element, the
    selected ones and the others. *)
Lemma true_op_pos (x : R) : exists d : R, true_op x = real d /\ 0 < d.
Proof.
  rewrite true_op_real.
  destruct (Rlt_dec 0 x); eexists; (split; [reflexivity | lra]).
Qed.

(** C5. [BB] is exactly zero, and in particular finite, wherever the
    temperature is zero or negative and wherever the wavenumber is zero;
    it is finite on every finite input. The guard is an elementwise
    selection: [vectorized_cond] takes the reciprocal of [true_op x], which
    is positive at every element, and selects afterwards; on an array the
    result holds element by element. *)
Theorem BB_zero_guard :
  (forall temperature wavenumber : R,
      temperature <= 0 -> BB temperature wavenumber = real 0) /\
  (forall temperature : R, BB temperature 0 = real 0) /\
  (forall temperature wavenumber : R, is_real (BB temperature wavenumber)) /\
  (forall x : R,
      (exists d : R, true_op x = real d /\ 0 < d) /\
      vectorized_cond x =
      where_ (x >? 0.0) (true_fun (true_op x)) (false_fun (false_op x))) /\
  (forall (temperature : R) (wavenumber : list R) (j : nat),
      temperature <= 0 -> (j < length wavenumber)%nat ->
      BB_array temperature (map real wavenumber) !! j = Some (real 0)) /\
  (forall (temperature : R) (wavenumber : list R) (j : nat),
      map real wavenumber !! j = Some (real 0) ->
      BB_array temperature (map real wavenumber) !! j = Some (real 0)).
Proof.
  split; [ | split; [ | split; [ | split; [ | split]]]].
  - intros temperature wavenumber HT.
    now rewrite BB_real, BB_value_cold.
  - intros temperature. now rewrite BB_real, BB_value_zero_wavenumber.
  - intros temperature wavenumber. rewrite BB_real. now eexists.
  - intros x. split; [apply true_op_pos | reflexivity].
  - intros temperature wavenumber j HT Hj. unfold BB_array.
    rewrite !list_lookup_fmap.
    destruct (lookup_lt_is_Some_2 wavenumber j Hj) as [w ->].
    cbn [fmap option_fmap option_map].
    now rewrite BB_real, BB_value_cold.
  - intros temperature wavenumber j Hw. unfold BB_array.
    rewrite list_lookup_fmap, Hw. cbn [fmap option_fmap option_map].
    now rewrite BB_real, BB_value_zero_wavenumber.
Qed.

Lemma BB_zero_guard_witness :
  BB (-3) 2 = real 0 /\
  BB_array 0 (map real [1; 2]) !! 1%nat = Some (real 0) /\
  BB_array 5 (map real [1; 0]) !! 1%nat = Some (real 0).
Proof.
  destruct BB_zero_guard as (Hcold & _ & _ & _ & Hcold_array & Hzero_array).
  split; [ | split].
  - apply Hcold. lra.
  - apply Hcold_array; [lra | cbn; lia].
  - apply Hzero_array. reflexivity.
Defined.

(** ** Two-stream coefficients *)

Section Coefficients.

Variables omega_0 g_0 : R.

Let e : R := E_value omega_0 g_0.

(** The radicand of the transmission and the radicand of [zeta]. *)
Let rad_T : R := e * (e - omega_0) * (1 - omega_0 * g_0).
Let rad_zeta : R := (e - omega_0) / e / (1 - omega_0 * g_0).

Lemma T_real (delta_tau : R) :
  0 <= rad_T ->
  T omega_0 g_0 delta_tau = real (exp (-2 * sqrt rad_T * delta_tau)).
Proof.
  intros Hrad. unfold T. rewrite E_real. fold e. fl_simpl.
  rewrite fpowr_half by exact Hrad. reflexivity.
Qed.

Lemma zeta_radicand_real :
  e <> 0 -> 1 - omega_0 * g_0 <> 0 -> 0 <= rad_zeta ->
  (((E omega_0 g_0 - omega_0) / E omega_0 g_0 / (1 - omega_0 * g_0))
     ** 0.5)%fl = real (sqrt rad_zeta).
Proof.
  intros He Hg Hrad. rewrite E_real. fold e. fl_simpl.
  rewrite fdiv_real by exact He. rewrite fdiv_real by exact Hg.
  now rewrite fpowr_half.
Qed.

Lemma zeta_plus_real :
  e <> 0 -> 1 - omega_0 * g_0 <> 0 -> 0 <= rad_zeta ->
  zeta_plus omega_0 g_0 = real (0.5 * (1 + sqrt rad_zeta)).
Proof.
  intros He Hg Hrad. unfold zeta_plus.
  now rewrite zeta_radicand_real.
Qed.

Lemma zeta_minus_real :
  e <> 0 -> 1 - omega_0 * g_0 <> 0 -> 0 <= rad_zeta ->
  zeta_minus omega_0 g_0 = real (0.5 * (1 - sqrt rad_zeta)).
Proof.
  intros He Hg Hrad. unfold zeta_minus.
  now rewrite zeta_radicand_real.
Qed.

Lemma pi_real :
  e - omega_0 <> 0 ->
  pi omega_0 g_0 = real (PI * (1 - omega_0) / (e - omega_0)).
Proof.
  intros He. unfold pi. rewrite E_real. fold e. fl_simpl.
  now rewrite fdiv_real.
Qed.

End Coefficients.

Lemma physical_domain_radicands (omega_0 g_0 delta_tau : R) :
  physical_domain omega_0 g_0 delta_tau ->
  let e := E_value omega_0 g_0 in
  0 < e /\ 0 < e - omega_0 /\ 0 < 1 - omega_0 * g_0 /\
  0 <= e * (e - omega_0) * (1 - omega_0 * g_0) /\
  0 <= (e - omega_0) / e / (1 - omega_0 * g_0).
Proof.
  intros (Hw & Hg & Ht & Hwg & He) e. fold e in He.
  assert (He0 : 0 < e) by lra.
  assert (Hd : 0 < e - omega_0) by lra.
  assert (Hs : 0 < 1 - omega_0 * g_0) by lra.
  repeat split; try assumption.
  - apply Rlt_le. repeat apply Rmult_lt_0_compat; assumption.
  - apply Rlt_le. repeat apply Rdiv_lt_0_compat; assumption.
Qed.

(** C1. On the physical domain [propagate_fluxes] computes the transmission
    [T = exp(-2 sqrt(E (E - omega_0) (1 - omega_0 g_0)) delta_tau)] and the
    coefficients [chi = zeta_minus^2 T^2 - zeta_plus^2],
    [xi = zeta_plus zeta_minus (1 - T^2)],
    [psi = (zeta_minus^2 - zeta_plus^2) T] and
    [pi = PI (1 - omega_0) / (E - omega_0)], with
    [zeta_plus/minus = (1 +/- sqrt((E - omega_0) / E / (1 - omega_0 g_0))) / 2]
    and [E = E(omega_0, g_0)]. *)
Theorem coefficients_closed_form (omega_0 g_0 delta_tau : R) :
  physical_domain omega_0 g_0 delta_tau ->
  let e := E_value omega_0 g_0 in
  let t := spec_T omega_0 g_0 delta_tau in
  let zp := spec_zeta 1 omega_0 g_0 in
  let zm := spec_zeta (-1) omega_0 g_0 in
  E omega_0 g_0 = real e /\
  T omega_0 g_0 delta_tau = real t /\
  zeta_plus omega_0 g_0 = real zp /\
  zeta_minus omega_0 g_0 = real zm /\
  chi omega_0 g_0 delta_tau = real (zm ^ 2 * t ^ 2 - zp ^ 2) /\
  xi omega_0 g_0 delta_tau = real (zp * zm * (1 - t ^ 2)) /\
  psi omega_0 g_0 delta_tau = real ((zm ^ 2 - zp ^ 2) * t) /\
  pi omega_0 g_0 = real (PI * (1 - omega_0) / (e - omega_0)).
Proof.
  intros Hdom e t zp zm.
  destruct (physical_domain_radicands _ _ _ Hdom) as (He & Hd & Hs & HrT & Hrz).
  fold e in He, Hd, HrT, Hrz.
  assert (HT : T omega_0 g_0 delta_tau = real t) by now apply T_real.
  assert (Hzp : zeta_plus omega_0 g_0 = real zp).
  { rewrite zeta_plus_real by (try assumption; fold e; lra).
    apply real_eq. unfold zp, spec_zeta. cbv zeta. fold e. lra. }
  assert (Hzm : zeta_minus omega_0 g_0 = real zm).
  { rewrite zeta_minus_real by (try assumption; fold e; lra).
    apply real_eq. unfold zm, spec_zeta. cbv zeta. fold e. lra. }
  split; [apply E_real | ].
  split; [exact HT | ].
  split; [exact Hzp | ].
  split; [exact Hzm | ].
  unfold chi, xi, psi. rewrite HT, Hzp, Hzm. fl_simpl.
  repeat (split; [reflexivity | ]).
  apply pi_real. fold e. lra.
Qed.

(** The domain contains every weakly scattering layer, where [E] is 1, and
    in particular the layers of [emit], which have [omega_0 = 0]. *)
Lemma physical_domain_low_albedo (omega_0 g_0 delta_tau : R) :
  0 <= omega_0 <= 0.1 -> -1 <= g_0 <= 1 -> 0 <= delta_tau ->
  physical_domain omega_0 g_0 delta_tau.
Proof.
  intros Hw Hg Ht. unfold physical_domain, E_value.
  destruct (Rlt_dec 0.1 omega_0) as [H | _]; [lra | ].
  repeat split; try lra. nra.
Qed.

Lemma physical_domain_example : physical_domain 0.5 0.5 1.
Proof.
  unfold physical_domain, E_value.
  destruct (Rlt_dec 0.1 0.5); lra.
Defined.

Lemma coefficients_closed_form_witness :
  T 0.5 0.5 1 = real (spec_T 0.5 0.5 1) /\
  pi 0.5 0.5 = real (PI * (1 - 0.5) / (E_value 0.5 0.5 - 0.5)).
Proof.
  pose proof (coefficients_closed_form 0.5 0.5 1 physical_domain_example) as H.
  cbv zeta in H. split; [apply H | apply H].
Defined.

(** Outside that domain a radicand can be negative: at [omega_0 = 1],
    [g_0 = 0] the correction term is below the albedo and the transmission
    is not a finite number. *)
Lemma T_outside_domain : T 1 0 1 = nonfinite.
Proof.
  unfold T. rewrite E_real. unfold E_value.
  destruct (Rlt_dec 0.1 1) as [_ | H]; [ | lra]. fl_simpl.
  unfold fpowr.
  match goal with |- context [Rlt_dec 0 ?x] =>
    destruct (Rlt_dec 0 x) as [H | _]; [lra | ];
    destruct (Req_dec_T x 0) as [H | _]; [lra | ] end.
  reflexivity.
Qed.

(** ** Derivative in depth *)

Lemma Bprime_x_real (delta_tau : R) :
  Bprime_x delta_tau = real (if Req_dec_T delta_tau 0 then 1 else delta_tau).
Proof.
  unfold Bprime_x, feq. replace 0.0 with 0 by lra. replace 1.0 with 1 by lra.
  destruct (Req_dec_T delta_tau 0); reflexivity.
Qed.

Lemma Bprime_zero (B1 B2 : fl) : Bprime B1 B2 0 = real 0.
Proof. unfold Bprime. now rewrite feq_true. Qed.

Lemma Bprime_nonzero (B1 B2 delta_tau : R) :
  delta_tau <> 0 -> Bprime B1 B2 delta_tau = real ((B1 - B2) / delta_tau).
Proof.
  intros H. unfold Bprime. rewrite feq_false by exact H.
  rewrite Bprime_x_real.
  destruct (Req_dec_T delta_tau 0); [contradiction | ].
  fl_simpl. now rewrite fdiv_real.
Qed.

(** C8. The derivative in depth [B'] is [(B1 - B2) / delta_tau] wherever
    [delta_tau] is not zero and exactly zero where it is zero, whatever the
    two blackbody terms are; the divisor [x] that the quotient is computed
    with is never zero (it is 1 where [delta_tau] is zero), so that no
    element is divided by zero. *)
Theorem Bprime_guarded :
  (forall B1 B2 delta_tau : R,
      delta_tau <> 0 ->
      Bprime B1 B2 delta_tau = real ((B1 - B2) / delta_tau)) /\
  (forall B1 B2 : fl, Bprime B1 B2 0 = real 0) /\
  Bprime_x 0 = real 1 /\
  (forall delta_tau : R,
      exists x : R, Bprime_x delta_tau = real x /\ x <> 0) /\
  (forall B1 B2 delta_tau : R,
      is_real ((real B1 - real B2) / Bprime_x delta_tau)%fl).
Proof.
  split; [exact Bprime_nonzero | ].
  split; [exact Bprime_zero | ].
  split.
  { rewrite Bprime_x_real.
    destruct (Req_dec_T 0 0) as [_ | n]; [reflexivity | ].
    now contradiction n. }
  split.
  - intros delta_tau. rewrite Bprime_x_real.
    destruct (Req_dec_T delta_tau 0); eexists; (split; [reflexivity | lra]).
  - intros B1 B2 delta_tau. rewrite Bprime_x_real. fl_simpl.
    destruct (Req_dec_T delta_tau 0);
      (rewrite fdiv_real by lra); now eexists.
Qed.

Lemma Bprime_guarded_witness :
  Bprime 3 1 2 = real ((3 - 1) / 2).
Proof.
  apply (proj1 Bprime_guarded). lra.
Defined.

(** ** A layer without scattering *)

Lemma E_value_nonscattering : E_value 0 0 = 1.
Proof. unfold E_value. destruct (Rlt_dec 0.1 0); [lra | reflexivity]. Qed.

Section NonScattering.

Variable delta_tau : R.

Let t : R := exp (-2 * delta_tau).

Lemma T_nonscattering : T 0 0 delta_tau = real t.
Proof.
  rewrite T_real; rewrite E_value_nonscattering.
  - apply real_eq. replace (1 * (1 - 0) * (1 - 0 * 0)) with 1 by lra.
    rewrite sqrt_1. unfold t. f_equal. lra.
  - lra.
Qed.

Lemma zeta_plus_nonscattering : zeta_plus 0 0 = real 1.
Proof.
  rewrite zeta_plus_real; rewrite ?E_value_nonscattering; try lra.
  apply real_eq. replace ((1 - 0) / 1 / (1 - 0 * 0)) with 1 by lra.
  rewrite sqrt_1. lra.
Qed.

Lemma zeta_minus_nonscattering : zeta_minus 0 0 = real 0.
Proof.
  rewrite zeta_minus_real; rewrite ?E_value_nonscattering; try lra.
  apply real_eq. replace ((1 - 0) / 1 / (1 - 0 * 0)) with 1 by lra.
  rewrite sqrt_1. lra.
Qed.

Lemma chi_nonscattering : chi 0 0 delta_tau = real (-1).
Proof.
  unfold chi.
  rewrite T_nonscattering, zeta_plus_nonscattering, zeta_minus_nonscattering.
  fl_simpl. apply real_eq. lra.
Qed.

Lemma xi_nonscattering : xi 0 0 delta_tau = real 0.
Proof.
  unfold xi.
  rewrite T_nonscattering, zeta_plus_nonscattering, zeta_minus_nonscattering.
  fl_simpl. apply real_eq. lra.
Qed.

Lemma psi_nonscattering : psi 0 0 delta_tau = real (- t).
Proof.
  unfold psi.
  rewrite T_nonscattering, zeta_plus_nonscattering, zeta_minus_nonscattering.
  fl_simpl. apply real_eq. lra.
Qed.

Lemma pi_nonscattering : pi 0 0 = real PI.
Proof.
  rewrite pi_real; rewrite E_value_nonscattering; [ | lra].
  apply real_eq. field.
Qed.

Lemma Bprime_real (B1 B2 : R) :
  Bprime B1 B2 delta_tau =
  real (if Req_dec_T delta_tau 0 then 0 else (B1 - B2) / delta_tau).
Proof.
  destruct (Req_dec_T delta_tau 0) as [H | H].
  - revert B1 B2. rewrite H. intros B1 B2. apply Bprime_zero.
  - now apply Bprime_nonzero.
Qed.

Variables lam F_1_up F_2_down T_1 T_2 : R.

Let B1 : R := BB_value T_1 (1 / lam).
Let B2 : R := BB_value T_2 (1 / lam).
Let Bp : R := if Req_dec_T delta_tau 0 then 0 else (B1 - B2) / delta_tau.

(** The two outgoing fluxes of a layer with [omega_0 = g_0 = 0]. *)
Lemma propagate_fluxes_nonscattering :
  lam <> 0 ->
  propagate_fluxes lam F_1_up F_2_down T_1 T_2 delta_tau 0 0 =
  (real (t * F_1_up + PI * (B2 - t * B1 + Bp / 2 * (1 - t))),
   real (t * F_2_down + PI * (B1 - t * B2 - Bp / 2 * (1 - t)))).
Proof.
  intros Hlam. unfold propagate_fluxes. cbv zeta.
  rewrite chi_nonscattering, xi_nonscattering, psi_nonscattering,
    pi_nonscattering.
  rewrite (fdiv_real 1.0 lam) by exact Hlam.
  replace (1.0 / lam) with (1 / lam) by lra.
  rewrite !BB_real. fold B1 B2. rewrite Bprime_real. fold Bp.
  rewrite E_real, E_value_nonscattering. fl_simpl.
  rewrite !fdiv_real by lra. fl_simpl.
  f_equal; apply real_eq; field.
Qed.

End NonScattering.

Lemma real_0_0 : real 0.0 = real 0.
Proof. apply real_eq. lra. Qed.

(** A transparent layer between two equal temperatures. *)
Lemma propagate_fluxes_transparent (lam F_1_up F_2_down T_layer : R) :
  lam <> 0 ->
  propagate_fluxes lam F_1_up F_2_down T_layer T_layer 0 0 0 =
  (real F_1_up, real F_2_down).
Proof.
  intros Hlam. rewrite propagate_fluxes_nonscattering by exact Hlam.
  destruct (Req_dec_T 0 0) as [_ | n]; [ | now contradiction n].
  replace (-2 * 0) with 0 by lra. rewrite exp_0.
  f_equal; apply real_eq; lra.
Qed.

(** Without scattering the two outputs are finite, whatever the optical
    depth and the temperatures are. *)
Lemma propagate_fluxes_finite (lam F_1_up F_2_down T_1 T_2 delta_tau : R) :
  lam <> 0 ->
  is_real (fst (propagate_fluxes lam F_1_up F_2_down T_1 T_2 delta_tau 0 0)) /\
  is_real (snd (propagate_fluxes lam F_1_up F_2_down T_1 T_2 delta_tau 0 0)).
Proof.
  intros Hlam. rewrite propagate_fluxes_nonscattering by exact Hlam.
  split; now eexists.
Qed.

(** C2 as amended. With [delta_tau = 0], [omega_0 = g_0 = 0] and equal layer
    temperatures, each input flux leaves the layer unchanged in its own
    direction: the upward output is the upward input and the downward
    output is the downward input; the two blackbody terms cancel. *)
Theorem transparent_layer_passes_fluxes (lam F_up_in F_down_in T_layer : R) :
  lam <> 0 ->
  let out := propagate_fluxes lam F_up_in F_down_in T_layer T_layer 0 0 0 in
  fst out = real F_up_in /\ snd out = real F_down_in.
Proof.
  intros Hlam out. unfold out.
  now rewrite propagate_fluxes_transparent by exact Hlam.
Qed.

Lemma transparent_layer_passes_fluxes_witness :
  fst (propagate_fluxes 1 1 2 300 300 0 0 0) = real 1 /\
  snd (propagate_fluxes 1 1 2 300 300 0 0 0) = real 2.
Proof.
  apply (transparent_layer_passes_fluxes 1 1 2 300). lra.
Defined.

(** C2 as stated fails: the upward output is the upward input 1, not the
    downward input 2. *)
Lemma transparent_layer_does_not_swap :
  ~ (forall F_up_in F_down_in : R,
        propagate_fluxes 1 F_up_in F_down_in 300 300 0 0 0 =
        (real F_down_in, real F_up_in)).
Proof.
  intros H. specialize (H 1 2).
  rewrite propagate_fluxes_nonscattering in H by lra.
  destruct (Req_dec_T 0 0) as [_ | n]; [ | now contradiction n].
  replace (-2 * 0) with 0 in H by lra. rewrite exp_0 in H.
  apply (f_equal fst) in H. cbn [fst] in H. apply real_inj in H. lra.
Qed.

(** ** Layer geometry and convection *)

Section ThermodynamicsFacts.

Variables k_B sigma_sb : R.
Hypothesis k_B_pos : 0 < k_B.

Section LayerPair.

Variables T_i p_i p_ip1 g m_bar n_dof : R.
Hypothesis Hpair : layer_pair T_i p_i p_ip1 g m_bar n_dof.

Lemma ln_pressure_ratio_pos : 0 < ln (p_i / p_ip1).
Proof.
  destruct Hpair as (_ & [Hp2 Hp1] & _).
  rewrite <- ln_1. apply ln_increasing; [lra | ].
  apply Rmult_lt_reg_r with p_ip1; [exact Hp2 | ].
  unfold Rdiv. rewrite Rmult_assoc, Rinv_l by lra. lra.
Qed.

Lemma dz_value_pos : 0 < dz_value k_B T_i p_i p_ip1 g m_bar.
Proof.
  destruct Hpair as (HT & _ & Hg & Hm & _). unfold dz_value.
  apply Rmult_lt_0_compat; [ | apply ln_pressure_ratio_pos].
  apply Rdiv_lt_0_compat; apply Rmult_lt_0_compat; assumption.
Qed.

Lemma cp_value_pos : 0 < cp_value k_B m_bar n_dof.
Proof.
  destruct Hpair as (_ & _ & _ & Hm & Hn). unfold cp_value.
  apply Rmult_lt_0_compat; [ | exact k_B_pos].
  apply Rdiv_lt_0_compat; lra.
Qed.

Lemma rho_value_pos : 0 < rho_value k_B T_i p_i p_ip1 g m_bar.
Proof.
  destruct Hpair as (_ & [Hp2 Hp1] & Hg & _). unfold rho_value.
  apply Rdiv_lt_0_compat; [ | apply dz_value_pos].
  apply Rdiv_lt_0_compat; lra.
Qed.

Lemma delta_z_i_real :
  delta_z_i k_B T_i p_i p_ip1 g m_bar =
  real (dz_value k_B T_i p_i p_ip1 g m_bar).
Proof.
  destruct Hpair as (HT & [Hp2 Hp1] & Hg & Hm & _).
  unfold delta_z_i, dz_value. fl_simpl.
  rewrite fdiv_real by (apply Rmult_integral_contrapositive; lra).
  rewrite fdiv_real by lra.
  assert (0 < p_i / p_ip1) by (apply Rdiv_lt_0_compat; lra).
  now rewrite flog_pos.
Qed.

Lemma c_p_real : c_p k_B m_bar n_dof = real (cp_value k_B m_bar n_dof).
Proof.
  destruct Hpair as (_ & _ & _ & Hm & _). unfold c_p, cp_value. fl_simpl.
  now rewrite fdiv_real by lra.
Qed.

Lemma rho_p_real :
  rho_p k_B p_i p_ip1 T_i g m_bar =
  real (rho_value k_B T_i p_i p_ip1 g m_bar).
Proof.
  pose proof dz_value_pos as Hdz.
  destruct Hpair as (_ & _ & Hg & _).
  unfold rho_p, rho_value. rewrite delta_z_i_real. fl_simpl.
  rewrite fdiv_real by lra. now rewrite fdiv_real by lra.
Qed.

Lemma gamma_real (T_ip1 : R) :
  gamma k_B T_i T_ip1 p_i p_ip1 g m_bar =
  real (Gamma k_B T_i T_ip1 p_i p_ip1 g m_bar).
Proof.
  pose proof dz_value_pos as Hdz.
  unfold gamma, Gamma. rewrite delta_z_i_real. fl_simpl.
  now rewrite fdiv_real by lra.
Qed.

Lemma gamma_adiabatic_real :
  gamma_adiabatic k_B g m_bar n_dof = real (Gamma_ad k_B g m_bar n_dof).
Proof.
  pose proof cp_value_pos as Hcp.
  unfold gamma_adiabatic, Gamma_ad. rewrite c_p_real.
  now rewrite fdiv_real by lra.
Qed.

Lemma delta_gamma_real (T_ip1 : R) :
  delta_gamma k_B T_i T_ip1 p_i p_ip1 g m_bar n_dof =
  real (Gamma k_B T_i T_ip1 p_i p_ip1 g m_bar - Gamma_ad k_B g m_bar n_dof).
Proof.
  unfold delta_gamma. now rewrite gamma_real, gamma_adiabatic_real.
Qed.

Lemma mixing_length_real (alpha : R) :
  mixing_length k_B T_i g alpha m_bar = real (lmix_value k_B T_i g alpha m_bar).
Proof.
  destruct Hpair as (_ & _ & Hg & Hm & _).
  unfold mixing_length, lmix_value. fl_simpl.
  now rewrite fdiv_real by (apply Rmult_integral_contrapositive; lra).
Qed.

End LayerPair.

End ThermodynamicsFacts.

Section ConvectiveFlux.

Variable k_B : R.
Hypothesis k_B_pos : 0 < k_B.

Variables T_i p_i p_ip1 g m_bar n_dof alpha : R.
Hypothesis Hpair : layer_pair T_i p_i p_ip1 g m_bar n_dof.
Hypothesis alpha_pos : 0 < alpha.

Lemma convective_flux_stable (T_ip1 : R) :
  Gamma k_B T_i T_ip1 p_i p_ip1 g m_bar <= Gamma_ad k_B g m_bar n_dof ->
  convective_flux k_B T_i T_ip1 p_i p_ip1 g m_bar n_dof alpha = real 0.
Proof.
  intros HG. unfold convective_flux. cbv zeta.
  rewrite (delta_gamma_real k_B k_B_pos _ _ _ _ _ _ Hpair).
  now rewrite fgt_false by lra.
Qed.

Lemma convective_flux_unstable (T_ip1 : R) :
  Gamma_ad k_B g m_bar n_dof < Gamma k_B T_i T_ip1 p_i p_ip1 g m_bar ->
  convective_flux k_B T_i T_ip1 p_i p_ip1 g m_bar n_dof alpha =
  real (mixing_length_flux k_B T_i T_ip1 p_i p_ip1 g m_bar n_dof alpha).
Proof.
  intros HG. unfold convective_flux, mixing_length_flux. cbv zeta.
  rewrite (delta_gamma_real k_B k_B_pos _ _ _ _ _ _ Hpair).
  rewrite fgt_true by lra.
  rewrite (rho_p_real k_B k_B_pos _ _ _ _ _ _ Hpair).
  rewrite (c_p_real k_B _ _ _ _ _ _ Hpair).
  rewrite (mixing_length_real k_B _ _ _ _ _ _ Hpair). fl_simpl.
  destruct Hpair as (HT & _ & Hg & _).
  rewrite fdiv_real by lra.
  rewrite fpowr_half by (apply Rlt_le, Rdiv_lt_0_compat; assumption).
  rewrite fpowr_pos by lra. reflexivity.
Qed.

(** The factor of the flux that does not depend on the lapse rate. *)
Lemma mixing_length_factor_pos :
  0 < rho_value k_B T_i p_i p_ip1 g m_bar * cp_value k_B m_bar n_dof *
      lmix_value k_B T_i g alpha m_bar ^ 2 * sqrt (g / T_i).
Proof.
  pose proof (rho_value_pos k_B k_B_pos _ _ _ _ _ _ Hpair) as Hrho.
  pose proof (cp_value_pos k_B k_B_pos _ _ _ _ _ _ Hpair) as Hcp.
  destruct Hpair as (HT & _ & Hg & Hm & _).
  assert (Hl : 0 < lmix_value k_B T_i g alpha m_bar).
  { unfold lmix_value. apply Rdiv_lt_0_compat.
    - repeat apply Rmult_lt_0_compat; assumption.
    - apply Rmult_lt_0_compat; assumption. }
  apply Rmult_lt_0_compat;
    [apply Rmult_lt_0_compat; [apply Rmult_lt_0_compat; assumption | ] | ].
  - apply pow_lt. exact Hl.
  - apply sqrt_lt_R0. apply Rdiv_lt_0_compat; assumption.
Qed.

Lemma mixing_length_flux_pos (T_ip1 : R) :
  0 < mixing_length_flux k_B T_i T_ip1 p_i p_ip1 g m_bar n_dof alpha.
Proof.
  unfold mixing_length_flux.
  apply Rmult_lt_0_compat; [apply mixing_length_factor_pos | apply Rpower_pos].
Qed.

Lemma mixing_length_flux_increasing (T_ip1 T_ip1' : R) :
  Gamma_ad k_B g m_bar n_dof < Gamma k_B T_i T_ip1 p_i p_ip1 g m_bar ->
  Gamma k_B T_i T_ip1 p_i p_ip1 g m_bar
  < Gamma k_B T_i T_ip1' p_i p_ip1 g m_bar ->
  mixing_length_flux k_B T_i T_ip1 p_i p_ip1 g m_bar n_dof alpha
  < mixing_length_flux k_B T_i T_ip1' p_i p_ip1 g m_bar n_dof alpha.
Proof.
  intros Hex Hlt. unfold mixing_length_flux.
  apply Rmult_lt_compat_l; [apply mixing_length_factor_pos | ].
  apply Rlt_Rpower_l; lra.
Qed.

(** C7. For a layer pair, [convective_flux] is exactly zero wherever the
    local lapse rate [Gamma = (T_i - T_ip1) / dz] is at most the adiabatic
    one [Gamma_ad = g / c_p]; otherwise it is the mixing-length flux
    [rho c_p l_mix^2 sqrt(g / T) (Gamma - Gamma_ad)^1.5], which is strictly
    positive and strictly increasing in [Gamma - Gamma_ad]. *)
Theorem convective_flux_cases (T_ip1 : R) :
  gamma k_B T_i T_ip1 p_i p_ip1 g m_bar =
  real (Gamma k_B T_i T_ip1 p_i p_ip1 g m_bar) /\
  gamma_adiabatic k_B g m_bar n_dof = real (g / cp_value k_B m_bar n_dof) /\
  c_p k_B m_bar n_dof = real (cp_value k_B m_bar n_dof) /\
  (Gamma k_B T_i T_ip1 p_i p_ip1 g m_bar <= Gamma_ad k_B g m_bar n_dof ->
   convective_flux k_B T_i T_ip1 p_i p_ip1 g m_bar n_dof alpha = real 0) /\
  (Gamma_ad k_B g m_bar n_dof < Gamma k_B T_i T_ip1 p_i p_ip1 g m_bar ->
   convective_flux k_B T_i T_ip1 p_i p_ip1 g m_bar n_dof alpha =
   real (mixing_length_flux k_B T_i T_ip1 p_i p_ip1 g m_bar n_dof alpha) /\
   0 < mixing_length_flux k_B T_i T_ip1 p_i p_ip1 g m_bar n_dof alpha /\
   forall T_ip1' : R,
     Gamma k_B T_i T_ip1 p_i p_ip1 g m_bar
     < Gamma k_B T_i T_ip1' p_i p_ip1 g m_bar ->
     exists F F' : R,
       convective_flux k_B T_i T_ip1 p_i p_ip1 g m_bar n_dof alpha = real F /\
       convective_flux k_B T_i T_ip1' p_i p_ip1 g m_bar n_dof alpha = real F' /\
       F < F').
Proof.
  split; [exact (gamma_real k_B k_B_pos _ _ _ _ _ _ Hpair T_ip1) | ].
  split; [exact (gamma_adiabatic_real k_B k_B_pos _ _ _ _ _ _ Hpair) | ].
  split; [exact (c_p_real k_B _ _ _ _ _ _ Hpair) | ].
  split; [apply convective_flux_stable | ].
  intros Hex.
  split; [now apply convective_flux_unstable | ].
  split; [apply mixing_length_flux_pos | ].
  intros T_ip1' Hlt.
  exists (mixing_length_flux k_B T_i T_ip1 p_i p_ip1 g m_bar n_dof alpha),
    (mixing_length_flux k_B T_i T_ip1' p_i p_ip1 g m_bar n_dof alpha).
  split; [now apply convective_flux_unstable | ].
  split; [apply convective_flux_unstable; lra | ].
  now apply mixing_length_flux_increasing.
Qed.

End ConvectiveFlux.

(** ** Equilibrium timestep *)

Section Timestep.

Variables k_B sigma_sb : R.
Hypothesis k_B_pos : 0 < k_B.
Hypothesis sigma_sb_pos : 0 < sigma_sb.

Variables p_1 p_2 T_1 T_2 delta_F_i_dz g m_bar n_dof : R.
Hypothesis Hpair : layer_pair T_1 p_1 p_2 g m_bar n_dof.

Lemma dt_radiative_value_pos :
  0 < dt_radiative_value k_B sigma_sb p_1 T_1 g m_bar n_dof.
Proof.
  pose proof (cp_value_pos k_B k_B_pos _ _ _ _ _ _ Hpair) as Hcp.
  destruct Hpair as (HT & [Hp2 Hp1] & Hg & _).
  unfold dt_radiative_value.
  repeat apply Rdiv_lt_0_compat; try assumption.
  - apply Rmult_lt_0_compat; lra.
  - apply pow_lt. exact HT.
Qed.

Lemma dt_capped_pos : 0 < dt_capped k_B sigma_sb p_1 p_2 T_1 T_2 g m_bar n_dof.
Proof.
  pose proof dt_radiative_value_pos as Hrad.
  destruct Hpair as (HT & _ & Hg & _).
  unfold dt_capped. cbv zeta.
  destruct (Rlt_dec 0 _) as [Hd | _]; [ | exact Hrad].
  apply Rmin_glb_lt; [exact Hrad | ].
  apply sqrt_lt_R0. repeat apply Rdiv_lt_0_compat; assumption.
Qed.

Lemma f_i_pre_real (delta_F : R) :
  delta_F <> 0 ->
  (1e5 / fabs (real delta_F) ** 0.9)%fl =
  real (1e5 / Rpower (Rabs delta_F) 0.9).
Proof.
  intros H. fl_simpl.
  rewrite fpowr_pos by now apply Rabs_pos_lt.
  apply fdiv_real. pose proof (Rpower_pos (Rabs delta_F) 0.9). lra.
Qed.

Lemma delta_t_i_real :
  delta_t_i k_B sigma_sb p_1 p_2 T_1 T_2 delta_F_i_dz g m_bar n_dof =
  real (f_i_pre_value (delta_F_i_dz * dz_value k_B T_1 p_1 p_2 g m_bar) *
        dt_capped k_B sigma_sb p_1 p_2 T_1 T_2 g m_bar n_dof).
Proof.
  pose proof Hpair as (HT & [Hp2 Hp1] & Hg & Hm & Hn).
  unfold delta_t_i. cbv zeta.
  rewrite (delta_z_i_real k_B _ _ _ _ _ _ Hpair).
  rewrite (c_p_real k_B _ _ _ _ _ _ Hpair).
  rewrite (delta_gamma_real k_B k_B_pos _ _ _ _ _ _ Hpair).
  fl_simpl.
  rewrite (fdiv_real _ sigma_sb) by lra.
  rewrite (fdiv_real _ g) by lra.
  rewrite (fdiv_real _ (T_1 ^ 3)) by (apply pow_nonzero; lra).
  fold (dt_radiative_value k_B sigma_sb p_1 T_1 g m_bar n_dof).
  set (delta_F := delta_F_i_dz * dz_value k_B T_1 p_1 p_2 g m_bar).
  assert (Hpre :
    (if (if Req_dec_T delta_F 0 then false else true)
     then (1e5 / real (Rabs delta_F) ** 0.9)%fl else real 1) =
    real (f_i_pre_value delta_F)).
  { unfold f_i_pre_value. destruct (Req_dec_T delta_F 0); [reflexivity | ].
    now apply f_i_pre_real. }
  unfold fne, fgt, dt_capped. cbv zeta. rewrite Hpre.
  destruct (Rlt_dec 0 _) as [Hd | Hd]; [ | reflexivity].
  rewrite (fdiv_real T_1 g) by lra. rewrite fdiv_real by lra.
  rewrite fpowr_half
    by (apply Rlt_le; repeat apply Rdiv_lt_0_compat; assumption).
  reflexivity.
Qed.

(** C4 as amended. For a layer, [delta_t_i] is the radiative timescale
    [c_p p / (sigma_SB g T^3)], capped by the convective timescale
    [sqrt(T / (g dgamma))] where the lapse-rate excess [dgamma] is positive,
    the whole scaled by the pre-factor [f = 1e5 / |dF/dz * dz|^0.9] where the
    flux difference [dF/dz * dz] across the layer is not zero and by [f = 1]
    where it is. *)
Theorem delta_t_i_cases :
  let dz := dz_value k_B T_1 p_1 p_2 g m_bar in
  let dt_radiative := cp_value k_B m_bar n_dof * p_1 / sigma_sb / g / T_1 ^ 3 in
  let d_gamma :=
    Gamma k_B T_1 T_2 p_1 p_2 g m_bar - Gamma_ad k_B g m_bar n_dof in
  let dt :=
    if Rlt_dec 0 d_gamma then Rmin dt_radiative (sqrt (T_1 / g / d_gamma))
    else dt_radiative in
  delta_z_i k_B T_1 p_1 p_2 g m_bar = real dz /\
  delta_gamma k_B T_1 T_2 p_1 p_2 g m_bar n_dof = real d_gamma /\
  (delta_F_i_dz * dz <> 0 ->
   delta_t_i k_B sigma_sb p_1 p_2 T_1 T_2 delta_F_i_dz g m_bar n_dof =
   real (1e5 / Rpower (Rabs (delta_F_i_dz * dz)) 0.9 * dt)) /\
  (delta_F_i_dz * dz = 0 ->
   delta_t_i k_B sigma_sb p_1 p_2 T_1 T_2 delta_F_i_dz g m_bar n_dof =
   real (1 * dt)).
Proof.
  intros dz dt_radiative d_gamma dt.
  split; [exact (delta_z_i_real k_B _ _ _ _ _ _ Hpair) | ].
  split; [exact (delta_gamma_real k_B k_B_pos _ _ _ _ _ _ Hpair T_2) | ].
  rewrite delta_t_i_real. fold dz. unfold f_i_pre_value.
  change (dt_capped k_B sigma_sb p_1 p_2 T_1 T_2 g m_bar n_dof) with dt.
  split; intros H; destruct (Req_dec_T (delta_F_i_dz * dz) 0);
    try contradiction; reflexivity.
Qed.

End Timestep.

(** *** A concrete layer pair *)

Lemma ex_k_B_pos : 0 < ex_k_B.
Proof. unfold ex_k_B. lra. Defined.

Lemma ex_sigma_sb_pos : 0 < ex_sigma_sb.
Proof. unfold ex_sigma_sb. lra. Defined.

Lemma ex_layer_pair : layer_pair 1000 1000001 1000000 10 ex_m_bar 5.
Proof. unfold layer_pair, ex_m_bar. lra. Defined.

Lemma ln_1_plus_lt (x : R) : 0 < x -> ln (1 + x) < x.
Proof.
  intros Hx. rewrite <- (ln_exp x) at 2.
  apply ln_increasing; [lra | ]. apply exp_ineq1. lra.
Qed.

Lemma Rpower_base_1 (y : R) : Rpower 1 y = 1.
Proof. unfold Rpower. now rewrite ln_1, Rmult_0_r, exp_0. Qed.

Lemma inv_gt_1 (x : R) : 0 < x < 1 -> 1 < 1 / x.
Proof.
  intros [H0 H1]. apply Rmult_lt_reg_r with x; [exact H0 | ].
  unfold Rdiv. rewrite Rmult_assoc, Rinv_l by lra. lra.
Qed.

Lemma ex_dz_bounds :
  0 < dz_value ex_k_B 1000 1000001 1000000 10 ex_m_bar < 1.
Proof.
  split; [exact (dz_value_pos _ ex_k_B_pos _ _ _ _ _ _ ex_layer_pair) | ].
  unfold dz_value, ex_k_B, ex_m_bar.
  replace (1000001 / 1000000) with (1 + 1e-6) by lra.
  pose proof (ln_1_plus_lt 1e-6) as Hln.
  assert (H0 : 0 < ln (1 + 1e-6)).
  { rewrite <- ln_1. apply ln_increasing; lra. }
  lra.
Qed.

(** With equal temperatures the layer pair is stable. *)
Lemma ex_stable :
  Gamma ex_k_B 1000 1000 1000001 1000000 10 ex_m_bar
  <= Gamma_ad ex_k_B 10 ex_m_bar 5.
Proof.
  unfold Gamma. replace (1000 - 1000) with 0 by lra.
  unfold Rdiv at 1. rewrite Rmult_0_l.
  unfold Gamma_ad, cp_value, ex_k_B, ex_m_bar. lra.
Defined.

(** With one kelvin less above, it is unstable. *)
Lemma ex_unstable :
  Gamma_ad ex_k_B 10 ex_m_bar 5
  < Gamma ex_k_B 1000 999 1000001 1000000 10 ex_m_bar.
Proof.
  apply Rlt_trans with 1.
  - unfold Gamma_ad, cp_value, ex_k_B, ex_m_bar. lra.
  - unfold Gamma. replace (1000 - 999) with 1 by lra.
    apply inv_gt_1, ex_dz_bounds.
Defined.

Lemma convective_flux_cases_witness :
  convective_flux ex_k_B 1000 1000 1000001 1000000 10 ex_m_bar 5 1 = real 0 /\
  0 < mixing_length_flux ex_k_B 1000 999 1000001 1000000 10 ex_m_bar 5 1.
Proof.
  assert (Halpha : 0 < 1) by lra.
  split.
  - apply (convective_flux_cases ex_k_B ex_k_B_pos _ _ _ _ _ _ 1 ex_layer_pair
             Halpha 1000).
    exact ex_stable.
  - apply (convective_flux_cases ex_k_B ex_k_B_pos _ _ _ _ _ _ 1 ex_layer_pair
             Halpha 999).
    exact ex_unstable.
Defined.

Lemma delta_t_i_cases_witness :
  delta_t_i ex_k_B ex_sigma_sb 1000001 1000000 1000 1000 1 10 ex_m_bar 5 =
  real (1e5 /
        Rpower (Rabs (1 * dz_value ex_k_B 1000 1000001 1000000 10 ex_m_bar))
          0.9 *
        (if Rlt_dec 0 (Gamma ex_k_B 1000 1000 1000001 1000000 10 ex_m_bar
                       - Gamma_ad ex_k_B 10 ex_m_bar 5)
         then Rmin (cp_value ex_k_B ex_m_bar 5 * 1000001 / ex_sigma_sb / 10
                    / 1000 ^ 3)
                   (sqrt (1000 / 10 /
                          (Gamma ex_k_B 1000 1000 1000001 1000000 10 ex_m_bar
                           - Gamma_ad ex_k_B 10 ex_m_bar 5)))
         else cp_value ex_k_B ex_m_bar 5 * 1000001 / ex_sigma_sb / 10
              / 1000 ^ 3)).
Proof.
  apply (delta_t_i_cases ex_k_B ex_sigma_sb ex_k_B_pos ex_sigma_sb_pos
           1000001 1000000 1000 1000 1 10 ex_m_bar 5 ex_layer_pair).
  rewrite Rmult_1_l. apply Rgt_not_eq, Rlt_gt, ex_dz_bounds.
Defined.

(** The two pre-factors at a flux divergence of 1: the one of the code is
    above 1e5, the one of the specification below. *)
Lemma f_i_pre_value_large (delta_F : R) :
  0 < delta_F < 1 -> 1e5 < f_i_pre_value delta_F.
Proof.
  intros [H0 H1]. unfold f_i_pre_value.
  destruct (Req_dec_T delta_F 0) as [H | _]; [lra | ].
  rewrite Rabs_pos_eq by lra.
  pose proof (Rpower_pos delta_F 0.9) as Hp.
  assert (Hlt : Rpower delta_F 0.9 < 1).
  { rewrite <- (Rpower_base_1 0.9). apply Rlt_Rpower_l; lra. }
  set (r := Rpower delta_F 0.9) in *.
  apply Rmult_lt_reg_r with r; [exact Hp | ].
  replace (1e5 / r * r) with 1e5 by (field; lra). lra.
Qed.

Lemma spec_f_i_pre_small : spec_f_i_pre 1 < 1e5.
Proof.
  unfold spec_f_i_pre. destruct (Req_dec_T 1 0) as [H | _]; [lra | ].
  rewrite Rabs_R1. replace (1e5 / 1) with 1e5 by lra.
  rewrite <- (Rpower_1 1e5) at 2 by lra.
  apply Rpower_lt; lra.
Qed.

(** C4 as stated fails: on the concrete layer pair, with a flux divergence
    of 1, the timestep of the code is not
    [(1e5 / |dF/dz|)^0.9] times the capped timescale. *)
Lemma delta_t_i_differs_from_spec :
  delta_t_i ex_k_B ex_sigma_sb 1000001 1000000 1000 1000 1 10 ex_m_bar 5 <>
  real (spec_delta_t_i ex_k_B ex_sigma_sb 1000001 1000000 1000 1000 1 10
          ex_m_bar 5).
Proof.
  rewrite (delta_t_i_real ex_k_B ex_sigma_sb ex_k_B_pos ex_sigma_sb_pos
             _ _ _ _ _ _ _ _ ex_layer_pair).
  intros H. apply real_inj in H. unfold spec_delta_t_i in H.
  pose proof (dt_capped_pos ex_k_B ex_sigma_sb ex_k_B_pos ex_sigma_sb_pos
                _ _ _ 1000 _ _ _ ex_layer_pair) as Hcap.
  apply Rmult_eq_reg_r in H; [ | lra].
  rewrite Rmult_1_l in H.
  pose proof (f_i_pre_value_large _ ex_dz_bounds) as Hcode.
  pose proof spec_f_i_pre_small as Hspec. lra.
Qed.

(** ** Emission driver *)

Lemma fori_loop_steps {A : Type} (P : nat -> A -> Prop) (lower : nat)
    (body : nat -> A -> A) (init : A) (k : nat) :
  P lower init ->
  (forall i a, (lower <= i < lower + k)%nat -> P i a -> P (S i) (body i a)) ->
  P (lower + k)%nat (foldl (fun val i => body i val) init (seq lower k)).
Proof.
  intros Hinit. induction k as [ | k IH]; intros Hstep.
  - now rewrite Nat.add_0_r.
  - rewrite seq_S, foldl_app. cbn [foldl].
    replace (lower + S k)%nat with (S (lower + k)) by lia.
    apply Hstep; [lia | ]. apply IH.
    intros i a Hi. apply Hstep. lia.
Qed.

(** An invariant of the iterations of [lax.fori_loop]. *)
Lemma fori_loop_invariant {A : Type} (P : A -> Prop) (lower upper : nat)
    (body : nat -> A -> A) (init : A) :
  P init ->
  (forall i a, (lower <= i < upper)%nat -> P a -> P (body i a)) ->
  P (fori_loop lower upper body init).
Proof.
  intros Hinit Hstep. unfold fori_loop.
  apply (fori_loop_steps (fun _ => P)); [exact Hinit | ].
  intros i a Hi. apply Hstep. lia.
Qed.

Lemma half_length_app {A : Type} (up down : list A) :
  length up = length down -> (length (up ++ down) / 2)%nat = length up.
Proof.
  intros H. rewrite length_app, <- H.
  replace (length up + length up)%nat with (length up * 2)%nat by lia.
  now apply Nat.div_mul.
Qed.

Lemma split_stack {A : Type} (up down : list A) :
  length up = length down ->
  take (length (up ++ down) / 2)%nat (up ++ down) = up /\
  drop (length (up ++ down) / 2)%nat (up ++ down) = down.
Proof.
  intros H. rewrite half_length_app by exact H.
  split; [apply take_app_length | apply drop_app_length].
Qed.

Lemma length_zeros (n m : nat) : length (zeros n m) = n.
Proof. apply length_replicate. Qed.

Section EmitShape.

Variable interp : R -> list R -> list R -> R.
Variable offline_opacities : list (list (list R)).
Variables temperatures pressures lam : list R.
Variable F_TOA : list R.
Variable g : R.
Variable opacity_grid_temperatures : list R.

Let n_layers : nat := length pressures.
Let n_wavelengths : nat := length lam.

Let body : nat -> list (list fl) -> list (list fl) :=
  body_fun interp offline_opacities temperatures pressures lam g
    opacity_grid_temperatures.

Let step : nat -> list (list fl) -> list (list fl) -> list fl * list fl :=
  layer_step interp offline_opacities temperatures pressures lam g
    opacity_grid_temperatures.

(** One iteration on a stacked pair of arrays of equal height. *)
Lemma body_fun_stack (i : nat) (up down : list (list fl)) :
  length up = length down ->
  body i (up ++ down) =
  <[(i + 1)%nat := fst (step i up down)]> up ++
  <[i := snd (step i up down)]> down.
Proof.
  intros H. unfold body, body_fun. cbv zeta.
  destruct (split_stack up down H) as [-> ->].
  unfold step, layer_step, layer_delta_tau.
  now destruct (propagate_fluxes_array _ _ _ _ _ _ _ _).
Qed.

Lemma length_layer_step (i : nat) (up down : list (list fl)) :
  length (fst (step i up down)) = n_wavelengths /\
  length (snd (step i up down)) = n_wavelengths.
Proof.
  unfold step, layer_step, propagate_fluxes_array. cbn [fst snd].
  now rewrite !length_map, !length_seq.
Qed.

Let fluxes_down_init : list (list fl) :=
  <[(n_layers - 1)%nat := map real F_TOA]> (zeros n_layers n_wavelengths).

Lemma flux_shape_init :
  flux_shape pressures lam (zeros n_layers n_wavelengths ++ fluxes_down_init)
    (zeros n_layers n_wavelengths) fluxes_down_init.
Proof.
  unfold flux_shape, fluxes_down_init.
  now rewrite length_insert, length_zeros.
Qed.

Lemma flux_rows_init :
  length F_TOA = n_wavelengths ->
  flux_rows lam (zeros n_layers n_wavelengths) fluxes_down_init.
Proof.
  intros HF. split.
  - apply Forall_replicate, length_replicate.
  - apply Forall_insert.
    + apply Forall_replicate, length_replicate.
    + now rewrite length_map.
Qed.

Lemma flux_shape_step (i : nat) (fluxes up down : list (list fl)) :
  (1 <= i)%nat ->
  flux_shape pressures lam fluxes up down ->
  flux_shape pressures lam (body i fluxes)
    (<[(i + 1)%nat := fst (step i up down)]> up)
    (<[i := snd (step i up down)]> down).
Proof.
  intros Hi (-> & Hup & Hdown & Hzero).
  unfold flux_shape. rewrite !length_insert.
  split; [apply body_fun_stack; congruence | ].
  repeat split; try assumption.
  intros k Hk. rewrite list_lookup_insert_ne by lia. now apply Hzero.
Qed.

Lemma flux_rows_step (i : nat) (up down : list (list fl)) :
  flux_rows lam up down ->
  flux_rows lam (<[(i + 1)%nat := fst (step i up down)]> up)
    (<[i := snd (step i up down)]> down).
Proof.
  intros [Hup Hdown].
  destruct (length_layer_step i up down) as [Hl1 Hl2].
  split; now apply Forall_insert.
Qed.

(** What [emit] returns is the state of the loop after its last
    iteration, taken apart. *)
Lemma emit_unstack (P : list (list fl) -> list (list fl) -> Prop) :
  P (zeros n_layers n_wavelengths) fluxes_down_init ->
  (forall i up down,
      (1 <= i < n_layers)%nat ->
      length up = n_layers -> length down = n_layers ->
      (forall k, (k < 2)%nat -> up !! k = zeros n_layers n_wavelengths !! k) ->
      P up down ->
      P (<[(i + 1)%nat := fst (step i up down)]> up)
        (<[i := snd (step i up down)]> down)) ->
  exists up down,
    emit interp offline_opacities temperatures pressures lam F_TOA g
      opacity_grid_temperatures = (up, down) /\
    length up = n_layers /\ length down = n_layers /\
    (forall k, (k < 2)%nat -> up !! k = zeros n_layers n_wavelengths !! k) /\
    P up down.
Proof.
  intros Hinit Hstep. unfold emit. cbv zeta.
  fold n_layers n_wavelengths body fluxes_down_init.
  set (init := (zeros n_layers n_wavelengths ++ fluxes_down_init)).
  assert (H : exists up down,
             flux_shape pressures lam (fori_loop 1 n_layers body init) up down
             /\ P up down).
  { apply (fori_loop_invariant
             (fun a => exists up down,
                  flux_shape pressures lam a up down /\ P up down)).
    - eexists _, _. split; [apply flux_shape_init | exact Hinit].
    - intros i a Hi (up & down & Hshape & HP).
      eexists _, _. split; [apply flux_shape_step; [lia | exact Hshape] | ].
      destruct Hshape as (_ & Hup & Hdown & Hzero).
      now apply Hstep. }
  destruct H as (up & down & (-> & Hup & Hdown & Hzero) & HP).
  exists up, down.
  destruct (split_stack up down) as [-> ->]; [congruence | ].
  repeat split; assumption.
Qed.

Lemma emit_shape :
  length F_TOA = n_wavelengths ->
  exists up down,
    emit interp offline_opacities temperatures pressures lam F_TOA g
      opacity_grid_temperatures = (up, down) /\
    length up = n_layers /\ length down = n_layers /\
    (forall k, (k < 2)%nat -> up !! k = zeros n_layers n_wavelengths !! k) /\
    flux_rows lam up down.
Proof.
  intros HF. apply emit_unstack.
  - now apply flux_rows_init.
  - intros i up down _ _ _ _. apply flux_rows_step.
Qed.

(** C10. The rows of [flux_up] at the two bottom layers, indices 0 and 1,
    are identically zero in what [emit] returns: the loop starts at index 1
    and iteration [i] writes [flux_up] at [i + 1] only. *)
Theorem emit_bottom_rows_zero (k : nat) :
  (k < 2)%nat -> (k < length pressures)%nat ->
  fst (emit interp offline_opacities temperatures pressures lam F_TOA g
         opacity_grid_temperatures) !! k =
  Some (replicate (length lam) (real 0)).
Proof.
  intros Hk Hlayers.
  destruct (emit_unstack (fun _ _ => True))
    as (up & down & -> & _ & _ & Hzero & _).
  - exact I.
  - intros; exact I.
  - cbn [fst]. rewrite Hzero by exact Hk.
    now apply lookup_replicate_2.
Qed.

End EmitShape.

(** *** Boundary rows *)

Lemma elem_lookup (a : list fl) (j : nat) (x : fl) :
  a !! j = Some x -> elem a j = x.
Proof. intros H. unfold elem. now rewrite H. Qed.

Lemma elem_is_real (a : list fl) (j : nat) :
  Forall is_real a -> (j < length a)%nat -> is_real (elem a j).
Proof.
  intros Ha Hj. destruct (lookup_lt_is_Some_2 a j Hj) as [x Hx].
  rewrite (elem_lookup _ _ _ Hx). exact (Forall_lookup_1 _ _ _ _ Ha Hx).
Qed.

Lemma elem_map_real (rs : list R) (j : nat) :
  (j < length rs)%nat ->
  exists r, rs !! j = Some r /\ elem (map real rs) j = real r.
Proof.
  intros Hj. destruct (lookup_lt_is_Some_2 rs j Hj) as [r Hr].
  exists r. split; [exact Hr | ]. apply elem_lookup.
  now rewrite list_lookup_fmap, Hr.
Qed.

Lemma lookup_map_seq {A : Type} (f : nat -> A) (n j : nat) :
  (j < n)%nat -> map f (seq 0 n) !! j = Some (f j).
Proof.
  intros Hj. now rewrite list_lookup_fmap, lookup_seq_lt by exact Hj.
Qed.

(** An array is the list of its elements. *)
Lemma elems_of_row (a : list fl) : map (elem a) (seq 0 (length a)) = a.
Proof.
  apply list_eq. intros j.
  destruct (decide (j < length a)%nat) as [Hj | Hj].
  - rewrite lookup_map_seq by exact Hj.
    destruct (lookup_lt_is_Some_2 a j Hj) as [x Hx].
    now rewrite Hx, (elem_lookup _ _ _ Hx).
  - rewrite (lookup_ge_None_2 a j) by lia.
    apply lookup_ge_None_2. rewrite length_map, length_seq. lia.
Qed.

Lemma getc_lookup {A : Type} (d : A) (a : list A) (i : nat) (x : A) :
  a !! i = Some x -> getc d a i = x.
Proof.
  intros H. pose proof (lookup_lt_Some _ _ _ H) as Hi.
  unfold getc. replace (i `min` (length a - 1))%nat with i by lia.
  now rewrite H.
Qed.

(** Reading past the end gives the last element. *)
Lemma getc_clamped {A : Type} (d : A) (a : list A) (i : nat) :
  (length a - 1 <= i)%nat -> getc d a i = getc d a (length a - 1).
Proof.
  intros Hi. unfold getc. f_equal. f_equal. lia.
Qed.

(** Without gravity the optical depth increment is not a finite number. *)
Lemma delta_tau_i_zero_gravity (kappa_i p_1 p_2 : R) :
  delta_tau_i kappa_i p_1 p_2 0 = nonfinite.
Proof. unfold delta_tau_i. fl_simpl. now rewrite fdiv_zero. Qed.

Lemma delta_tau_i_real (kappa_i p_1 p_2 g : R) :
  g <> 0 ->
  delta_tau_i kappa_i p_1 p_2 g = real ((p_1 - p_2) / g * kappa_i).
Proof.
  intros Hg. unfold delta_tau_i. fl_simpl. now rewrite fdiv_real.
Qed.

Section EmitBoundary.

Variable interp : R -> list R -> list R -> R.
Variable offline_opacities : list (list (list R)).
Variables temperatures pressures lam : list R.
Variable F_TOA : list R.
Variable g : R.
Variable opacity_grid_temperatures : list R.

Let n_layers : nat := length pressures.
Let n_wavelengths : nat := length lam.

Hypothesis g_nonzero : g <> 0.
Hypothesis lam_nonzero : Forall (fun l => l <> 0) lam.
Hypothesis F_TOA_length : length F_TOA = length lam.
Hypothesis temperatures_length : length temperatures = length pressures.

Let step : nat -> list (list fl) -> list (list fl) -> list fl * list fl :=
  layer_step interp offline_opacities temperatures pressures lam g
    opacity_grid_temperatures.

Let delta_tau : nat -> list fl :=
  layer_delta_tau interp offline_opacities temperatures pressures lam g
    opacity_grid_temperatures.

Lemma finite_row_zeros :
  finite_row n_wavelengths (replicate n_wavelengths (real 0)).
Proof.
  split; [apply length_replicate | ].
  apply Forall_replicate. now eexists.
Qed.

Lemma finite_row_F_TOA : finite_row n_wavelengths (map real F_TOA).
Proof.
  split; [now rewrite length_map | ].
  apply Forall_fmap, Forall_true. intros r. now eexists.
Qed.

Lemma elem_lam (j : nat) :
  (j < n_wavelengths)%nat ->
  exists l, elem (map real lam) j = real l /\ l <> 0.
Proof.
  intros Hj. destruct (elem_map_real lam j Hj) as (l & Hl & ->).
  exists l. split; [reflexivity | ].
  exact (Forall_lookup_1 _ _ _ _ lam_nonzero Hl).
Qed.

Lemma elem_delta_tau (i j : nat) :
  (j < n_wavelengths)%nat ->
  exists kappa_i,
    elem (delta_tau i) j =
    real ((getc 0 pressures i - getc 0 pressures (i + 1)) / g * kappa_i).
Proof.
  intros Hj. unfold delta_tau, layer_delta_tau, kappa_interp.
  rewrite map_map. eexists. apply elem_lookup.
  rewrite lookup_map_seq by exact Hj.
  now rewrite delta_tau_i_real by exact g_nonzero.
Qed.

(** One element of the two rows that an iteration computes. *)
Lemma step_elem (i j : nat) (up down : list (list fl)) :
  (j < n_wavelengths)%nat ->
  fst (step i up down) !! j =
  Some (fst (propagate_fluxes (elem (map real lam) j)
               (elem (getc [] up i) j) (elem (getc [] down (i + 1)) j)
               (real (getc 0 temperatures i))
               (real (getc 0 temperatures (i + 1)))
               (elem (delta_tau i) j) (real 0) (real 0))) /\
  snd (step i up down) !! j =
  Some (snd (propagate_fluxes (elem (map real lam) j)
               (elem (getc [] up i) j) (elem (getc [] down (i + 1)) j)
               (real (getc 0 temperatures i))
               (real (getc 0 temperatures (i + 1)))
               (elem (delta_tau i) j) (real 0) (real 0))).
Proof.
  intros Hj. unfold step, layer_step, propagate_fluxes_array. cbn [fst snd].
  rewrite length_map. fold n_wavelengths. rewrite real_0_0.
  split; now rewrite lookup_map_seq by exact Hj.
Qed.

Lemma step_finite (i : nat) (up down : list (list fl)) :
  finite_row n_wavelengths (getc [] up i) ->
  finite_row n_wavelengths (getc [] down (i + 1)) ->
  finite_row n_wavelengths (fst (step i up down)) /\
  finite_row n_wavelengths (snd (step i up down)).
Proof.
  intros [Hlen_up Hup] [Hlen_down Hdown].
  destruct (length_layer_step interp offline_opacities temperatures pressures
              lam g opacity_grid_temperatures i up down) as [Hl1 Hl2].
  fold step n_wavelengths in Hl1, Hl2.
  assert (Hout : forall j, (j < n_wavelengths)%nat ->
            exists a b, fst (step i up down) !! j = Some (real a) /\
                        snd (step i up down) !! j = Some (real b)).
  { intros j Hj. destruct (step_elem i j up down Hj) as [-> ->].
    destruct (elem_lam j Hj) as (l & -> & Hl).
    destruct (elem_is_real _ j Hup) as [u ->]; [lia | ].
    destruct (elem_is_real _ j Hdown) as [d ->]; [lia | ].
    destruct (elem_delta_tau i j Hj) as (kappa_i & ->).
    destruct (propagate_fluxes_finite l u d (getc 0 temperatures i)
                (getc 0 temperatures (i + 1))
                ((getc 0 pressures i - getc 0 pressures (i + 1)) / g * kappa_i)
                Hl) as [[a ->] [b ->]].
    now exists a, b. }
  split; (split; [assumption | ]); apply Forall_lookup; intros j x Hx;
    pose proof (lookup_lt_Some _ _ _ Hx) as Hj;
    destruct (Hout j) as (a & b & Ha & Hb); try lia.
  - rewrite Ha in Hx. injection Hx as <-. now eexists.
  - rewrite Hb in Hx. injection Hx as <-. now eexists.
Qed.

(** The last iteration reads the top layer twice, as layer [i] and as the
    clamped layer [i + 1]: it is a transparent layer between two equal
    temperatures and hands the flux from above down unchanged. *)
Lemma step_top (up down : list (list fl)) :
  (1 <= n_layers)%nat ->
  length down = n_layers ->
  finite_row n_wavelengths (getc [] up (n_layers - 1)) ->
  finite_row n_wavelengths (getc [] down (n_layers - 1)) ->
  snd (step (n_layers - 1) up down) = getc [] down (n_layers - 1).
Proof.
  intros Hn Hdown_len [Hlen_up Hup] [Hlen_down Hdown].
  destruct (length_layer_step interp offline_opacities temperatures pressures
              lam g opacity_grid_temperatures (n_layers - 1) up down)
    as [_ Hl2].
  fold step n_wavelengths in Hl2.
  rewrite <- (elems_of_row (getc [] down (n_layers - 1))), Hlen_down.
  apply list_eq. intros j.
  destruct (decide (j < n_wavelengths)%nat) as [Hj | Hj].
  - rewrite lookup_map_seq by exact Hj.
    destruct (step_elem (n_layers - 1) j up down Hj) as [_ ->]. f_equal.
    destruct (elem_lam j Hj) as (l & -> & Hl).
    destruct (elem_delta_tau (n_layers - 1) j Hj) as (kappa_i & ->).
    rewrite (getc_clamped 0 pressures (n_layers - 1 + 1))
      by (fold n_layers; lia).
    rewrite (getc_clamped 0 temperatures (n_layers - 1 + 1))
      by (rewrite temperatures_length; fold n_layers; lia).
    rewrite (getc_clamped [] down (n_layers - 1 + 1)) by lia.
    rewrite temperatures_length, Hdown_len. fold n_layers.
    destruct (elem_is_real _ j Hup) as [u ->]; [lia | ].
    destruct (elem_is_real _ j Hdown) as [d ->]; [lia | ].
    set (p := getc 0 pressures (n_layers - 1)).
    replace ((p - p) / g * kappa_i) with 0 by (field; exact g_nonzero).
    now rewrite propagate_fluxes_transparent by exact Hl.
  - rewrite !lookup_ge_None_2; [reflexivity | | ].
    + rewrite length_map, length_seq. lia.
    + rewrite Hl2. lia.
Qed.

Lemma finite_row_getc (a : list (list fl)) (i : nat) :
  a <> [] -> Forall (finite_row n_wavelengths) a ->
  finite_row n_wavelengths (getc [] a i).
Proof.
  intros Ha Hfin.
  assert (Hlen : (0 < length a)%nat) by (destruct a; [congruence | cbn; lia]).
  destruct (lookup_lt_is_Some_2 a (i `min` (length a - 1))%nat) as [row Hrow];
    [lia | ].
  unfold getc. rewrite Hrow. exact (Forall_lookup_1 _ _ _ _ Hfin Hrow).
Qed.

Lemma boundary_invariant_init :
  (1 <= n_layers)%nat ->
  boundary_invariant pressures lam F_TOA (zeros n_layers n_wavelengths)
    (<[(n_layers - 1)%nat := map real F_TOA]> (zeros n_layers n_wavelengths)).
Proof.
  intros Hn. unfold boundary_invariant, zeros.
  split; [apply Forall_replicate, finite_row_zeros | ].
  split.
  - apply Forall_insert; [ | apply finite_row_F_TOA].
    apply Forall_replicate, finite_row_zeros.
  - apply list_lookup_insert_eq. rewrite length_replicate. lia.
Qed.

Lemma boundary_invariant_step (i : nat) (up down : list (list fl)) :
  (1 <= i < n_layers)%nat ->
  length up = n_layers -> length down = n_layers ->
  boundary_invariant pressures lam F_TOA up down ->
  boundary_invariant pressures lam F_TOA
    (<[(i + 1)%nat := fst (step i up down)]> up)
    (<[i := snd (step i up down)]> down).
Proof.
  intros Hi Hup_len Hdown_len (Hup & Hdown & Htop).
  assert (Hup_ne : up <> []) by (intros ->; cbn in Hup_len; lia).
  assert (Hdown_ne : down <> []) by (intros ->; cbn in Hdown_len; lia).
  destruct (step_finite i up down) as [Hfin_up Hfin_down];
    [now apply finite_row_getc | now apply finite_row_getc | ].
  split; [now apply Forall_insert | ].
  split; [now apply Forall_insert | ].
  destruct (decide (i = n_layers - 1)%nat) as [-> | Hne].
  - rewrite list_lookup_insert_eq by lia. f_equal.
    rewrite step_top; try lia; try now apply finite_row_getc.
    now apply getc_lookup.
  - now rewrite list_lookup_insert_ne by exact Hne.
Qed.

Lemma emit_top_row :
  (1 <= length pressures)%nat ->
  snd (emit interp offline_opacities temperatures pressures lam F_TOA g
         opacity_grid_temperatures) !! (length pressures - 1)%nat =
  Some (map real F_TOA).
Proof.
  intros Hn.
  destruct (emit_unstack interp offline_opacities temperatures pressures lam
              F_TOA g opacity_grid_temperatures
              (boundary_invariant pressures lam F_TOA))
    as (up & down & -> & _ & _ & _ & _ & _ & Htop).
  - now apply boundary_invariant_init.
  - intros i up down Hi Hup Hdown _. now apply boundary_invariant_step.
  - exact Htop.
Qed.


End EmitBoundary.

(** *** A call of [emit] *)

Lemma broadcast_row_length (n : nat) (y row : list R) :
  broadcast_row n y = Some row -> length row = n.
Proof.
  unfold broadcast_row. destruct (decide (length y = n)) as [Hy | _].
  - now intros [= <-].
  - destruct y as [ | y_0 [ | ? ?]]; try discriminate.
    intros [= <-]. apply length_replicate.
Qed.

Lemma broadcast_row_accepts (n : nat) (y : list R) :
  length y = n \/ length y = 1%nat ->
  broadcast_row n y = Some (incident_row n y).
Proof.
  intros Hy. unfold incident_row, broadcast_row.
  destruct (decide (length y = n)) as [_ | Hne]; [reflexivity | ].
  destruct Hy as [Hy | Hy]; [contradiction | ].
  destruct y as [ | y_0 [ | ? ?]]; try discriminate. reflexivity.
Qed.

Lemma broadcast_row_refuses (n : nat) (y : list R) :
  ~ (length y = n \/ length y = 1%nat) -> broadcast_row n y = None.
Proof.
  intros Hy. unfold broadcast_row.
  destruct (decide (length y = n)) as [H | _]; [tauto | ].
  destruct y as [ | y_0 [ | ? ?]]; try reflexivity.
  exfalso. apply Hy. now right.
Qed.

(** On the inputs that the array operations accept, a call returns what
    [emit] computes from the row of the incident flux. *)
Lemma emit_call_returns (interp : R -> list R -> list R -> R)
    (offline_opacities : list (list (list R)))
    (temperatures pressures lam F_TOA : list R) (g : R)
    (opacity_grid_temperatures : list R) :
  arrays_accepted offline_opacities temperatures pressures lam F_TOA
    opacity_grid_temperatures ->
  emit_call interp offline_opacities temperatures pressures lam F_TOA g
    opacity_grid_temperatures =
  Returns (emit interp offline_opacities temperatures pressures lam
             (incident_row (length lam) F_TOA) g opacity_grid_temperatures).
Proof.
  unfold arrays_accepted, emit_call.
  destruct (shape offline_opacities) as [[n_0 n_1] n_2]. cbv zeta.
  intros (Hp & HF & HT & H0 & H2 & Hgrid).
  rewrite decide_False by lia.
  rewrite broadcast_row_accepts by exact HF.
  rewrite decide_False by lia.
  rewrite decide_False by lia.
  now rewrite decide_True by exact Hgrid.
Qed.

(** On every other input a call raises an error of the array library. *)
Lemma emit_call_raises (interp : R -> list R -> list R -> R)
    (offline_opacities : list (list (list R)))
    (temperatures pressures lam F_TOA : list R) (g : R)
    (opacity_grid_temperatures : list R) :
  ~ arrays_accepted offline_opacities temperatures pressures lam F_TOA
      opacity_grid_temperatures ->
  exists message,
    emit_call interp offline_opacities temperatures pressures lam F_TOA g
      opacity_grid_temperatures = Raises message.
Proof.
  unfold arrays_accepted, emit_call.
  destruct (shape offline_opacities) as [[n_0 n_1] n_2]. cbv zeta.
  intros Hno.
  destruct (decide (length pressures = 0)%nat) as [ | Hp]; [now eexists | ].
  destruct (decide (length F_TOA = length lam \/ length F_TOA = 1%nat))
    as [HF | HF].
  - rewrite broadcast_row_accepts by exact HF.
    destruct (decide (length temperatures = 0)%nat) as [ | HT];
      [now eexists | ].
    destruct (decide (n_0 = 0 \/ n_2 = 0)%nat) as [ | Hn]; [now eexists | ].
    destruct (decide (length opacity_grid_temperatures = n_1)) as [Hgrid | ];
      [ | now eexists].
    exfalso. apply Hno. repeat split; try assumption; lia.
  - rewrite broadcast_row_refuses by exact HF. now eexists.
Qed.




(** *** A concrete column *)

Lemma emit_bottom_rows_zero_witness :
  fst (emit (fun _ _ _ => 1) [[[1]]; [[1]]; [[1]]] [300; 250; 200] [3; 2; 1]
         [1; 2] [5; 6] 10 [250]) !! 1%nat =
  Some [real 0; real 0].
Proof.
  apply (emit_bottom_rows_zero (fun _ _ _ => 1) [[[1]]; [[1]]; [[1]]]
           [300; 250; 200] [3; 2; 1] [1; 2] [5; 6] 10 [250] 1); cbn; lia.
Defined.


(** With an optical depth that is not finite, no flux is. *)
Lemma propagate_fluxes_nonfinite_depth (lam F_1_up F_2_down T_1 T_2 : fl) :
  propagate_fluxes lam F_1_up F_2_down T_1 T_2 nonfinite 0 0 =
  (nonfinite, nonfinite).
Proof.
  assert (HT : T 0 0 nonfinite = nonfinite).
  { unfold T, fmul. now rewrite lift2_nonfinite_r. }
  assert (Hchi : chi 0 0 nonfinite = nonfinite).
  { unfold chi. rewrite HT. unfold fsub, fmul. cbn [fpow lift1].
    now rewrite lift2_nonfinite_r. }
  unfold propagate_fluxes. cbv zeta. rewrite Hchi. reflexivity.
Qed.


(** * Further properties of the code *)

(** ** The correction term on the physical ranges *)

Lemma E_value_bounds (omega_0 g_0 : R) :
  0 <= omega_0 <= 1 -> -1 <= g_0 <= 1 ->
  0.8 <= E_value omega_0 g_0 <= 1.31.
Proof.
  intros Hw Hg. unfold E_value.
  destruct (Rlt_dec 0.1 omega_0) as [H | H]; [ | lra].
  split; nra.
Qed.

(** X1. On the physical ranges of albedo and asymmetry factor, [E] is a
    finite number between 0.8 and 1.31: the quotients by [E] in
    [propagate_fluxes] never divide by zero there. *)
Theorem E_bounded (omega_0 g_0 : R) :
  0 <= omega_0 <= 1 -> -1 <= g_0 <= 1 ->
  exists e : R, E omega_0 g_0 = real e /\ 0.8 <= e <= 1.31.
Proof.
  intros Hw Hg. exists (E_value omega_0 g_0).
  split; [apply E_real | now apply E_value_bounds].
Qed.

Lemma E_bounded_witness :
  exists e : R, E 1 (-1) = real e /\ 0.8 <= e <= 1.31.
Proof.
  apply (E_bounded 1 (-1)); lra.
Defined.

(** X2. [E] is not continuous at the threshold [omega_0 = 0.1]: for
    isotropic or backward scattering ([g_0 <= 0]) it is 1 at the threshold
    and at least 1.18 for every albedo in [(0.1, 0.2]]. *)
Theorem E_jumps_at_threshold (omega_0 g_0 : R) :
  0.1 < omega_0 <= 0.2 -> -1 <= g_0 <= 0 ->
  E 0.1 g_0 = real 1 /\
  exists e : R, E omega_0 g_0 = real e /\ 1.18 <= e.
Proof.
  intros Hw Hg. rewrite !E_real. unfold E_value.
  destruct (Rlt_dec 0.1 0.1) as [H | _]; [lra | ].
  destruct (Rlt_dec 0.1 omega_0) as [_ | H]; [ | lra].
  split; [reflexivity | ].
  eexists. split; [reflexivity | ]. nra.
Qed.

Lemma E_jumps_at_threshold_witness :
  E 0.1 0 = real 1 /\ exists e : R, E 0.15 0 = real e /\ 1.18 <= e.
Proof.
  apply (E_jumps_at_threshold 0.15 0); lra.
Defined.

(** ** The Planck function on finite arguments *)

Section PlanckFacts.

Let h : R := 6.62607015e-34.
Let c : R := 299792458.0e6.
Let k_B : R := 1.380649e-23.

(** The reciprocal that [vectorized_cond] computes. *)
Let v (x : R) : R := if Rlt_dec 0 x then 1 / x else 0.

Lemma BB_value_unfold (temperature wavenumber : R) :
  BB_value temperature wavenumber =
  1e18 * 2 * h * c ^ 2 * wavenumber ^ 3 *
  v (exp (h * c / k_B * wavenumber * v temperature) - 1).
Proof. reflexivity. Qed.

Lemma planck_constants_pos : 0 < 1e18 * 2 * h * c ^ 2 /\ 0 < h * c / k_B.
Proof. unfold h, c, k_B. split; lra. Qed.

Lemma v_nonneg (x : R) : 0 <= v x.
Proof.
  unfold v. destruct (Rlt_dec 0 x) as [H | _]; [ | lra].
  apply Rlt_le, Rdiv_lt_0_compat; lra.
Qed.

Lemma v_nonpos_arg (x : R) : x <= 0 -> v x = 0.
Proof. intros H. unfold v. destruct (Rlt_dec 0 x); [lra | reflexivity]. Qed.

Lemma v_pos_arg (x : R) : 0 < x -> v x = 1 / x /\ 0 < v x.
Proof.
  intros H. unfold v. destruct (Rlt_dec 0 x); [ | contradiction].
  split; [reflexivity | apply Rdiv_lt_0_compat; lra].
Qed.

Lemma expm1_sign (x : R) :
  (0 < x -> 0 < exp x - 1) /\ (x <= 0 -> exp x - 1 <= 0).
Proof.
  split.
  - intros H. pose proof (exp_ineq1 x). lra.
  - intros [H | ->].
    + pose proof (exp_increasing x 0 H) as Hlt. rewrite exp_0 in Hlt. lra.
    + rewrite exp_0. lra.
Qed.

Lemma BB_value_nonneg (temperature wavenumber : R) :
  0 <= BB_value temperature wavenumber.
Proof.
  rewrite BB_value_unfold.
  destruct planck_constants_pos as [HC HK].
  set (x := h * c / k_B * wavenumber * v temperature).
  destruct (Rle_lt_dec wavenumber 0) as [Hw | Hw].
  - assert (Hx : x <= 0).
    { unfold x. pose proof (v_nonneg temperature).
      assert (h * c / k_B * wavenumber <= 0) by nra. nra. }
    rewrite v_nonpos_arg by now apply expm1_sign. lra.
  - pose proof (v_nonneg (exp x - 1)).
    assert (0 < wavenumber ^ 3) by now apply pow_lt.
    assert (0 < 1e18 * 2 * h * c ^ 2 * wavenumber ^ 3)
      by now apply Rmult_lt_0_compat.
    apply Rmult_le_pos; [apply Rlt_le | ]; assumption.
Qed.

Lemma BB_value_increasing (T_1 T_2 wavenumber : R) :
  0 < T_1 < T_2 -> 0 < wavenumber ->
  BB_value T_1 wavenumber < BB_value T_2 wavenumber.
Proof.
  intros [H1 H12] Hw. rewrite !BB_value_unfold.
  destruct planck_constants_pos as [HC HK].
  assert (H2 : 0 < T_2) by lra.
  destruct (v_pos_arg T_1 H1) as [E1 Hv1].
  destruct (v_pos_arg T_2 H2) as [E2 Hv2].
  assert (Hv : v T_2 < v T_1).
  { rewrite E1, E2. unfold Rdiv. rewrite !Rmult_1_l.
    apply Rinv_lt_contravar; [now apply Rmult_lt_0_compat | exact H12]. }
  set (K := h * c / k_B * wavenumber).
  assert (HKw : 0 < K) by now apply Rmult_lt_0_compat.
  set (x1 := K * v T_1). set (x2 := K * v T_2).
  assert (Hx2 : 0 < x2) by now apply Rmult_lt_0_compat.
  assert (Hx : x2 < x1) by now apply Rmult_lt_compat_l.
  assert (He2 : 0 < exp x2 - 1) by (apply expm1_sign; exact Hx2).
  assert (He : exp x2 - 1 < exp x1 - 1).
  { pose proof (exp_increasing x2 x1 Hx). lra. }
  destruct (v_pos_arg (exp x1 - 1)) as [-> _]; [lra | ].
  destruct (v_pos_arg (exp x2 - 1)) as [-> _]; [lra | ].
  apply Rmult_lt_compat_l.
  - apply Rmult_lt_0_compat; [exact HC | now apply pow_lt].
  - unfold Rdiv. rewrite !Rmult_1_l.
    apply Rinv_lt_contravar; [apply Rmult_lt_0_compat; lra | exact He].
Qed.

End PlanckFacts.

Lemma BB_value_nonpositive_wavenumber (temperature wavenumber : R) :
  wavenumber <= 0 -> BB_value temperature wavenumber = 0.
Proof.
  intros Hw. unfold BB_value. cbv zeta.
  match goal with
  | |- context [Rlt_dec 0 (exp ?x - 1)] =>
      assert (Hx : x <= 0);
      [ | pose proof (proj2 (expm1_sign x) Hx);
          destruct (Rlt_dec 0 (exp x - 1)); lra ]
  end.
  assert (6.62607015e-34 * 299792458.0e6 / 1.380649e-23 * wavenumber <= 0)
    by nra.
  destruct (Rlt_dec 0 temperature) as [HT | _]; [ | lra].
  assert (0 < 1 / temperature) by (apply Rdiv_lt_0_compat; lra).
  nra.
Qed.

Lemma BB_value_nondecreasing (T_1 T_2 wavenumber : R) :
  T_1 <= T_2 -> BB_value T_1 wavenumber <= BB_value T_2 wavenumber.
Proof.
  intros H12.
  destruct (Rle_lt_dec wavenumber 0) as [Hw | Hw].
  { rewrite !BB_value_nonpositive_wavenumber by exact Hw. lra. }
  destruct (Rle_lt_dec T_1 0) as [H1 | H1].
  { rewrite (BB_value_cold T_1) by exact H1. apply BB_value_nonneg. }
  destruct H12 as [H12 | ->]; [ | lra].
  apply Rlt_le, BB_value_increasing; [lra | exact Hw].
Qed.

(** X3. [BB] is never negative, and it is zero unless temperature and
    wavenumber are both positive: a negative wavenumber gives zero, like a
    zero one. *)
Theorem BB_never_negative (temperature wavenumber : R) :
  exists B : R,
    BB temperature wavenumber = real B /\ 0 <= B /\
    (0 < B -> 0 < temperature /\ 0 < wavenumber).
Proof.
  exists (BB_value temperature wavenumber).
  split; [apply BB_real | ].
  split; [apply BB_value_nonneg | ].
  intros HB. split.
  - destruct (Rle_lt_dec temperature 0) as [HT | HT]; [ | exact HT].
    rewrite BB_value_cold in HB by exact HT. lra.
  - destruct (Rle_lt_dec wavenumber 0) as [Hw | Hw]; [ | exact Hw].
    rewrite BB_value_nonpositive_wavenumber in HB by exact Hw. lra.
Qed.

(** X4. [BB] does not decrease when the temperature rises, whatever the
    wavenumber. *)
Theorem BB_monotone_in_temperature (T_1 T_2 wavenumber : R) :
  T_1 <= T_2 ->
  exists B1 B2 : R,
    BB T_1 wavenumber = real B1 /\ BB T_2 wavenumber = real B2 /\
    0 <= B1 <= B2.
Proof.
  intros HT.
  exists (BB_value T_1 wavenumber), (BB_value T_2 wavenumber).
  split; [apply BB_real | ].
  split; [apply BB_real | ].
  split; [apply BB_value_nonneg | now apply BB_value_nondecreasing].
Qed.

Lemma BB_monotone_in_temperature_witness :
  exists B1 B2 : R,
    BB 200 1 = real B1 /\ BB 300 1 = real B2 /\ 0 <= B1 <= B2.
Proof.
  apply (BB_monotone_in_temperature 200 300 1); lra.
Defined.

Lemma BB_never_negative_witness :
  exists B : R, BB 300 (-1) = real B /\ B = 0.
Proof.
  destruct (BB_never_negative 300 (-1)) as (B & HB & Hnonneg & Hpos).
  exists B. split; [exact HB | ].
  destruct Hnonneg as [HB_pos | <-]; [ | reflexivity].
  destruct (Hpos HB_pos) as [_ Hw]. lra.
Defined.

(** ** The two-stream coefficients on the physical domain *)

Section DomainFacts.

Variables omega_0 g_0 delta_tau : R.
Hypothesis Hdom : physical_domain omega_0 g_0 delta_tau.

Let e : R := E_value omega_0 g_0.
Let s : R := sqrt ((e - omega_0) / e / (1 - omega_0 * g_0)).
Let t : R := exp (-2 * sqrt (e * (e - omega_0) * (1 - omega_0 * g_0))
                  * delta_tau).

Lemma zeta_root_pos : 0 < s.
Proof.
  destruct (physical_domain_radicands _ _ _ Hdom) as (He & Hd & Hs & _).
  unfold s. apply sqrt_lt_R0. fold e in He, Hd.
  repeat apply Rdiv_lt_0_compat; assumption.
Qed.

Lemma transmission_range : 0 < t <= 1.
Proof.
  destruct Hdom as (_ & _ & Ht & _).
  split; [apply exp_pos | ].
  unfold t.
  set (r := sqrt (e * (e - omega_0) * (1 - omega_0 * g_0))).
  assert (Hr : 0 <= r) by apply sqrt_pos.
  apply Rle_trans with (exp 0); [ | rewrite exp_0; lra].
  destruct (Req_dec_T (-2 * r * delta_tau) 0) as [-> | Hne]; [lra | ].
  apply Rlt_le, exp_increasing. nra.
Qed.

Lemma domain_coefficients_real :
  T omega_0 g_0 delta_tau = real t /\
  zeta_plus omega_0 g_0 = real (0.5 * (1 + s)) /\
  zeta_minus omega_0 g_0 = real (0.5 * (1 - s)).
Proof.
  destruct (physical_domain_radicands _ _ _ Hdom) as (He & Hd & Hs & HrT & Hrz).
  fold e in He, Hd, HrT, Hrz.
  split; [now apply T_real | ].
  split; [apply zeta_plus_real | apply zeta_minus_real];
    try assumption; fold e; lra.
Qed.

Lemma chi_domain_real :
  chi omega_0 g_0 delta_tau =
  real ((0.5 * (1 - s)) ^ 2 * t ^ 2 - (0.5 * (1 + s)) ^ 2).
Proof.
  destruct domain_coefficients_real as (HT & Hzp & Hzm).
  unfold chi. now rewrite HT, Hzp, Hzm.
Qed.

Lemma chi_domain_negative :
  (0.5 * (1 - s)) ^ 2 * t ^ 2 - (0.5 * (1 + s)) ^ 2 < 0.
Proof.
  pose proof zeta_root_pos as Hs. pose proof transmission_range as [Ht0 Ht1].
  assert (H1 : (1 - s) * t - (1 + s) < 0) by nra.
  assert (H2 : 0 < (1 - s) * t + (1 + s)) by nra.
  assert (H3 : ((1 - s) * t - (1 + s)) * ((1 - s) * t + (1 + s)) < 0).
  { apply Ropp_lt_cancel. rewrite Ropp_0, Ropp_mult_distr_l.
    apply Rmult_lt_0_compat; lra. }
  nra.
Qed.

End DomainFacts.

(** X5. On the physical domain the coefficient [chi], by which
    [propagate_fluxes] divides, is a negative number: the division is
    never by zero there, whatever the optical depth. *)
Theorem chi_negative (omega_0 g_0 delta_tau : R) :
  physical_domain omega_0 g_0 delta_tau ->
  exists x : R,
    chi omega_0 g_0 delta_tau = real x /\ x < 0 /\
    (1 / chi omega_0 g_0 delta_tau)%fl = real (1 / x).
Proof.
  intros Hdom. eexists. split; [now apply chi_domain_real | ].
  pose proof (chi_domain_negative _ _ _ Hdom) as Hneg.
  split; [exact Hneg | ].
  rewrite chi_domain_real by exact Hdom. apply fdiv_real. lra.
Qed.

Lemma chi_negative_witness :
  exists x : R, chi 0.5 0.5 1 = real x /\ x < 0 /\
                (1 / chi 0.5 0.5 1)%fl = real (1 / x).
Proof.
  apply (chi_negative 0.5 0.5 1 physical_domain_example).
Defined.

(** X6. On the physical domain the transmission lies in [(0, 1]], is 1 for
    a layer of zero optical depth, and the transmission of two stacked
    layers is the product of their transmissions. *)
Theorem transmission_composes (omega_0 g_0 tau_1 tau_2 : R) :
  physical_domain omega_0 g_0 tau_1 ->
  physical_domain omega_0 g_0 tau_2 ->
  exists t_1 t_2 : R,
    T omega_0 g_0 tau_1 = real t_1 /\ T omega_0 g_0 tau_2 = real t_2 /\
    0 < t_1 <= 1 /\ 0 < t_2 <= 1 /\
    T omega_0 g_0 0 = real 1 /\
    T omega_0 g_0 (real (tau_1 + tau_2)) = real (t_1 * t_2).
Proof.
  intros H1 H2.
  destruct (physical_domain_radicands _ _ _ H1) as (_ & _ & _ & Hrad & _).
  eexists _, _.
  split; [now apply T_real | ].
  split; [now apply T_real | ].
  split; [exact (transmission_range _ _ _ H1) | ].
  split; [exact (transmission_range _ _ _ H2) | ].
  split.
  - rewrite T_real by exact Hrad. apply real_eq.
    rewrite Rmult_0_r. apply exp_0.
  - rewrite T_real by exact Hrad. apply real_eq.
    rewrite <- exp_plus. f_equal. ring.
Qed.

Lemma transmission_composes_witness :
  exists t_1 t_2 : R,
    T 0.5 0.5 1 = real t_1 /\ T 0.5 0.5 1 = real t_2 /\
    0 < t_1 <= 1 /\ 0 < t_2 <= 1 /\
    T 0.5 0.5 0 = real 1 /\
    T 0.5 0.5 (real (1 + 1)) = real (t_1 * t_2).
Proof.
  apply (transmission_composes 0.5 0.5 1 1);
    exact physical_domain_example.
Defined.

(** ** A layer without scattering, continued *)

Lemma BB_nonfinite (temperature : fl) : BB temperature nonfinite = nonfinite.
Proof.
  unfold BB. cbv zeta. fl_simpl. reflexivity.
Qed.

Lemma propagate_fluxes_zero_wavelength
    (F_1_up F_2_down T_1 T_2 : fl) (delta_tau : R) :
  propagate_fluxes 0 F_1_up F_2_down T_1 T_2 delta_tau 0 0 =
  (nonfinite, nonfinite).
Proof.
  unfold propagate_fluxes. cbv zeta.
  rewrite chi_nonscattering, xi_nonscattering, psi_nonscattering,
    pi_nonscattering.
  rewrite fdiv_zero, !BB_nonfinite.
  unfold fadd, fsub, fmul.
  now rewrite !lift2_nonfinite_r.
Qed.

(** X7. At a wavelength of zero the wavenumber [1.0 / lam] is not finite,
    and neither of the two fluxes that [propagate_fluxes] returns is,
    whatever the incoming fluxes, the temperatures, the optical depth and
    the scattering parameters: the guards of [BB] do not cover the
    division, and the Planck terms enter both fluxes. *)
Theorem zero_wavelength_not_finite
    (F_1_up F_2_down T_1 T_2 delta_tau omega_0 g_0 : fl) :
  (1.0 / real 0)%fl = nonfinite /\
  propagate_fluxes 0 F_1_up F_2_down T_1 T_2 delta_tau omega_0 g_0 =
  (nonfinite, nonfinite).
Proof.
  split; [apply fdiv_zero | ].
  unfold propagate_fluxes. cbv zeta.
  rewrite fdiv_zero, !BB_nonfinite.
  unfold fadd, fsub, fmul. cbn [lift2].
  now rewrite !lift2_nonfinite_r.
Qed.

(** X8. Without scattering nothing is reflected: each outgoing flux is the
    incoming flux of the same direction times the transmission
    [exp(-2 delta_tau)], plus a thermal term that depends on neither
    flux. *)
Theorem nonscattering_no_reflection (lam T_1 T_2 delta_tau : R) :
  lam <> 0 ->
  exists source_up source_down : R,
    forall F_1_up F_2_down : R,
      propagate_fluxes lam F_1_up F_2_down T_1 T_2 delta_tau 0 0 =
      (real (exp (-2 * delta_tau) * F_1_up + source_up),
       real (exp (-2 * delta_tau) * F_2_down + source_down)).
Proof.
  intros Hlam. eexists _, _. intros F_1_up F_2_down.
  rewrite propagate_fluxes_nonscattering by exact Hlam. reflexivity.
Qed.

Lemma nonscattering_no_reflection_witness :
  exists source_up source_down : R,
    forall F_1_up F_2_down : R,
      propagate_fluxes 10 F_1_up F_2_down 300 250 0.5 0 0 =
      (real (exp (-2 * 0.5) * F_1_up + source_up),
       real (exp (-2 * 0.5) * F_2_down + source_down)).
Proof.
  apply (nonscattering_no_reflection 10 300 250 0.5). lra.
Defined.

(** X9. Without scattering the layer is symmetric: exchanging the two
    temperatures and the two incoming fluxes exchanges the two outgoing
    fluxes. *)
Theorem nonscattering_mirror (lam F_1_up F_2_down T_1 T_2 delta_tau : R) :
  let out := propagate_fluxes lam F_1_up F_2_down T_1 T_2 delta_tau 0 0 in
  propagate_fluxes lam F_2_down F_1_up T_2 T_1 delta_tau 0 0 =
  (snd out, fst out).
Proof.
  intros out. unfold out.
  destruct (Req_dec_T lam 0) as [-> | Hlam].
  - now rewrite !propagate_fluxes_zero_wavelength.
  - rewrite !propagate_fluxes_nonscattering by exact Hlam. cbn [fst snd].
    destruct (Req_dec_T delta_tau 0) as [_ | Hne];
      f_equal; apply real_eq; field; exact Hne.
Qed.

(** X10. An isothermal layer without scattering relaxes each flux towards
    [PI * B]: the distance of the outgoing flux from [PI * B] is the
    distance of the incoming flux times the transmission
    [exp(-2 delta_tau)], which lies in [(0, 1]] for a non-negative optical
    depth; a flux equal to [PI * B] passes unchanged. *)
Theorem isothermal_layer_relaxes (lam F_1_up F_2_down T_layer delta_tau : R) :
  lam <> 0 -> 0 <= delta_tau ->
  exists B F_2_up F_1_down : R,
    BB T_layer (1.0 / real lam)%fl = real B /\
    propagate_fluxes lam F_1_up F_2_down T_layer T_layer delta_tau 0 0 =
    (real F_2_up, real F_1_down) /\
    F_2_up - PI * B = exp (-2 * delta_tau) * (F_1_up - PI * B) /\
    F_1_down - PI * B = exp (-2 * delta_tau) * (F_2_down - PI * B) /\
    0 < exp (-2 * delta_tau) <= 1.
Proof.
  intros Hlam Htau.
  exists (BB_value T_layer (1 / lam)). eexists _, _.
  split.
  { rewrite fdiv_real by exact Hlam. rewrite BB_real.
    apply real_eq. f_equal. lra. }
  split; [now apply propagate_fluxes_nonscattering | ].
  assert (Ht : 0 < exp (-2 * delta_tau) <= 1).
  { split; [apply exp_pos | ].
    destruct Htau as [Hpos | <-].
    - apply Rlt_le. rewrite <- exp_0 at 1. apply exp_increasing. lra.
    - rewrite Rmult_0_r, exp_0. lra. }
  destruct (Req_dec_T delta_tau 0) as [_ | Hne];
    (split; [field; try exact Hne | split; [field; try exact Hne | exact Ht]]).
Qed.

Lemma isothermal_layer_relaxes_witness :
  exists B F_2_up F_1_down : R,
    BB 300 (1.0 / real 10)%fl = real B /\
    propagate_fluxes 10 1 2 300 300 0.5 0 0 = (real F_2_up, real F_1_down) /\
    F_2_up - PI * B = exp (-2 * 0.5) * (1 - PI * B) /\
    F_1_down - PI * B = exp (-2 * 0.5) * (2 - PI * B) /\
    0 < exp (-2 * 0.5) <= 1.
Proof.
  apply (isothermal_layer_relaxes 10 1 2 300 0.5); lra.
Defined.

(** ** Optical depth and layer height *)

Lemma ln_quotient (x y : R) : 0 < x -> 0 < y -> ln (x / y) = ln x - ln y.
Proof.
  intros Hx Hy. unfold Rdiv.
  rewrite ln_mult by (try apply Rinv_0_lt_compat; assumption).
  rewrite ln_Rinv by exact Hy. lra.
Qed.

(** X11. For a positive gravity the optical depth increment of a layer is
    finite; it is not negative where the opacity is not negative and the
    pressure does not increase upwards, it is zero between equal
    pressures, and the increments of two stacked layers of the same
    opacity add up to the increment of the two together. *)
Theorem delta_tau_i_additive (kappa_i p_1 p_2 p_3 g : R) :
  0 < g ->
  delta_tau_i kappa_i p_1 p_2 g = real ((p_1 - p_2) / g * kappa_i) /\
  (0 <= kappa_i -> p_2 <= p_1 -> 0 <= (p_1 - p_2) / g * kappa_i) /\
  delta_tau_i kappa_i p_1 p_1 g = real 0 /\
  (delta_tau_i kappa_i p_1 p_2 g + delta_tau_i kappa_i p_2 p_3 g)%fl =
  delta_tau_i kappa_i p_1 p_3 g.
Proof.
  intros Hg. assert (Hg0 : g <> 0) by lra.
  rewrite !delta_tau_i_real by exact Hg0.
  split; [reflexivity | ].
  split.
  - intros Hk Hp. apply Rmult_le_pos; [ | exact Hk].
    apply Rmult_le_pos; [lra | ]. apply Rlt_le, Rinv_0_lt_compat, Hg.
  - split; fl_simpl; apply real_eq; field; exact Hg0.
Qed.

Lemma delta_tau_i_additive_witness :
  (delta_tau_i 2 30 20 10 + delta_tau_i 2 20 5 10)%fl = delta_tau_i 2 30 5 10.
Proof.
  apply (delta_tau_i_additive 2 30 20 5 10). lra.
Defined.

Section LayerHeight.

Variable k_B : R.
Hypothesis k_B_pos : 0 < k_B.

Variables T_i g m_bar : R.
Hypothesis T_i_pos : 0 < T_i.
Hypothesis g_pos : 0 < g.
Hypothesis m_bar_pos : 0 < m_bar.

Lemma delta_z_i_any_pressures (p_1 p_2 : R) :
  0 < p_1 -> 0 < p_2 ->
  delta_z_i k_B T_i p_1 p_2 g m_bar = real (dz_value k_B T_i p_1 p_2 g m_bar).
Proof.
  intros H1 H2. unfold delta_z_i, dz_value. fl_simpl.
  rewrite fdiv_real by (apply Rmult_integral_contrapositive; lra).
  rewrite fdiv_real by lra.
  assert (0 < p_1 / p_2) by (apply Rdiv_lt_0_compat; lra).
  now rewrite flog_pos.
Qed.

Lemma dz_value_log (p_1 p_2 : R) :
  0 < p_1 -> 0 < p_2 ->
  dz_value k_B T_i p_1 p_2 g m_bar =
  k_B * T_i / (m_bar * g) * (ln p_1 - ln p_2).
Proof.
  intros H1 H2. unfold dz_value. now rewrite ln_quotient.
Qed.

(** X12. The height of a layer is finite for positive pressures, and
    positive where the pressure decreases upwards; exchanging the two
    pressures changes its sign, and the heights of two stacked layers of
    the same temperature add up to the height of the two together. *)
Theorem delta_z_i_additive (p_1 p_2 p_3 : R) :
  0 < p_1 -> 0 < p_2 -> 0 < p_3 ->
  exists dz_12 dz_23 : R,
    delta_z_i k_B T_i p_1 p_2 g m_bar = real dz_12 /\
    delta_z_i k_B T_i p_2 p_3 g m_bar = real dz_23 /\
    (p_2 < p_1 -> 0 < dz_12) /\
    delta_z_i k_B T_i p_2 p_1 g m_bar = real (- dz_12) /\
    delta_z_i k_B T_i p_1 p_3 g m_bar = real (dz_12 + dz_23).
Proof.
  intros H1 H2 H3.
  exists (dz_value k_B T_i p_1 p_2 g m_bar), (dz_value k_B T_i p_2 p_3 g m_bar).
  rewrite !delta_z_i_any_pressures by assumption.
  split; [reflexivity | ]. split; [reflexivity | ].
  split.
  - intros Hlt.
    apply (dz_value_pos k_B k_B_pos T_i p_1 p_2 g m_bar 0).
    unfold layer_pair. lra.
  - rewrite !dz_value_log by assumption.
    split; apply real_eq; field; split; lra.
Qed.

End LayerHeight.

Lemma delta_z_i_additive_witness :
  exists dz_12 dz_23 : R,
    delta_z_i ex_k_B 1000 30 20 10 ex_m_bar = real dz_12 /\
    delta_z_i ex_k_B 1000 20 5 10 ex_m_bar = real dz_23 /\
    (20 < 30 -> 0 < dz_12) /\
    delta_z_i ex_k_B 1000 20 30 10 ex_m_bar = real (- dz_12) /\
    delta_z_i ex_k_B 1000 30 5 10 ex_m_bar = real (dz_12 + dz_23).
Proof.
  apply (delta_z_i_additive ex_k_B ex_k_B_pos 1000 10 ex_m_bar);
    unfold ex_m_bar; lra.
Defined.

(** ** Density, convection and the temperature update *)

Section LayerPairFacts.

Variables k_B sigma_sb : R.
Hypothesis k_B_pos : 0 < k_B.
Hypothesis sigma_sb_pos : 0 < sigma_sb.

Variables T_i p_i p_ip1 g m_bar n_dof : R.
Hypothesis Hpair : layer_pair T_i p_i p_ip1 g m_bar n_dof.

Lemma rho_value_no_gravity :
  rho_value k_B T_i p_i p_ip1 g m_bar =
  (p_i - p_ip1) * m_bar / (k_B * T_i * ln (p_i / p_ip1)).
Proof.
  pose proof (ln_pressure_ratio_pos _ _ _ _ _ _ Hpair) as Hln.
  destruct Hpair as (HT & _ & Hg & Hm & _).
  unfold rho_value, dz_value. field. repeat split; lra.
Qed.

(** X13. The density of a layer is positive, obeys the hydrostatic relation
    [rho * g * dz = p_i - p_ip1], and does not depend on the gravity: it
    is [(p_i - p_ip1) m_bar / (k_B T ln(p_i / p_ip1))]. *)
Theorem rho_p_hydrostatic :
  exists rho dz : R,
    rho_p k_B p_i p_ip1 T_i g m_bar = real rho /\
    delta_z_i k_B T_i p_i p_ip1 g m_bar = real dz /\
    0 < rho /\ rho * g * dz = p_i - p_ip1 /\
    rho = (p_i - p_ip1) * m_bar / (k_B * T_i * ln (p_i / p_ip1)) /\
    forall g' : R, 0 < g' -> rho_p k_B p_i p_ip1 T_i g' m_bar = real rho.
Proof.
  exists (rho_value k_B T_i p_i p_ip1 g m_bar),
    (dz_value k_B T_i p_i p_ip1 g m_bar).
  pose proof (dz_value_pos k_B k_B_pos _ _ _ _ _ _ Hpair) as Hdz.
  split; [exact (rho_p_real k_B k_B_pos _ _ _ _ _ _ Hpair) | ].
  split; [exact (delta_z_i_real k_B _ _ _ _ _ _ Hpair) | ].
  split; [exact (rho_value_pos k_B k_B_pos _ _ _ _ _ _ Hpair) | ].
  split.
  { destruct Hpair as (_ & _ & Hg & _). unfold rho_value. field. lra. }
  split; [exact rho_value_no_gravity | ].
  intros g' Hg'.
  assert (Hpair' : layer_pair T_i p_i p_ip1 g' m_bar n_dof).
  { destruct Hpair as (HT & Hp & _ & Hm & Hn). unfold layer_pair. tauto. }
  rewrite (rho_p_real k_B k_B_pos _ _ _ _ _ _ Hpair'). apply real_eq.
  pose proof (ln_pressure_ratio_pos _ _ _ _ _ _ Hpair) as Hln.
  destruct Hpair as (HT & _ & Hg & Hm & _).
  unfold rho_value, dz_value. field. repeat split; lra.
Qed.

(** The lapse-rate excess is positive exactly where the temperature step
    exceeds an adiabatic step. *)
Lemma unstable_iff (T_ip1 : R) :
  Gamma_ad k_B g m_bar n_dof < Gamma k_B T_i T_ip1 p_i p_ip1 g m_bar <->
  2 * T_i * ln (p_i / p_ip1) / (2 + n_dof) < T_i - T_ip1.
Proof.
  pose proof (dz_value_pos k_B k_B_pos _ _ _ _ _ _ Hpair) as Hdz.
  pose proof (cp_value_pos k_B k_B_pos _ _ _ _ _ _ Hpair) as Hcp.
  destruct Hpair as (HT & _ & Hg & Hm & Hn).
  assert (Hstep :
    Gamma_ad k_B g m_bar n_dof * dz_value k_B T_i p_i p_ip1 g m_bar =
    2 * T_i * ln (p_i / p_ip1) / (2 + n_dof)).
  { unfold Gamma_ad, cp_value, dz_value. field. repeat split; lra. }
  rewrite <- Hstep. unfold Gamma.
  set (dz := dz_value k_B T_i p_i p_ip1 g m_bar) in *.
  set (G := Gamma_ad k_B g m_bar n_dof).
  split; intros H.
  - apply Rmult_lt_compat_r with (r := dz) in H; [ | exact Hdz].
    replace ((T_i - T_ip1) / dz * dz) with (T_i - T_ip1) in H
      by (field; lra).
    exact H.
  - apply Rmult_lt_reg_r with dz; [exact Hdz | ].
    replace ((T_i - T_ip1) / dz * dz) with (T_i - T_ip1) by (field; lra).
    exact H.
Qed.

(** X14. Whether a layer pair convects depends on the two temperatures, the
    pressure ratio and [n_dof] only: the convective flux is zero exactly
    where [T_i - T_ip1 <= 2 T_i ln(p_i / p_ip1) / (2 + n_dof)], and
    positive elsewhere. In particular a layer pair whose temperature does
    not decrease upwards never convects. *)
Theorem convection_criterion (T_ip1 alpha : R) :
  0 < alpha ->
  exists F : R,
    convective_flux k_B T_i T_ip1 p_i p_ip1 g m_bar n_dof alpha = real F /\
    0 <= F /\
    (F = 0 <-> T_i - T_ip1 <= 2 * T_i * ln (p_i / p_ip1) / (2 + n_dof)) /\
    (T_i <= T_ip1 -> F = 0).
Proof.
  intros Halpha.
  pose proof (unstable_iff T_ip1) as Hiff.
  pose proof (ln_pressure_ratio_pos _ _ _ _ _ _ Hpair) as Hln.
  assert (Hstep : 0 < 2 * T_i * ln (p_i / p_ip1) / (2 + n_dof)).
  { destruct Hpair as (HT & _ & _ & _ & Hn).
    apply Rdiv_lt_0_compat; [ | lra].
    apply Rmult_lt_0_compat; [lra | exact Hln]. }
  destruct (Rle_lt_dec (Gamma k_B T_i T_ip1 p_i p_ip1 g m_bar)
              (Gamma_ad k_B g m_bar n_dof)) as [Hstable | Hunstable].
  - exists 0.
    split; [exact (convective_flux_stable k_B k_B_pos _ _ _ _ _ _ alpha
                     Hpair T_ip1 Hstable) | ].
    split; [lra | ].
    split; [ | reflexivity].
    split; [ | reflexivity].
    intros _. apply Rnot_lt_le. intros H. apply Hiff in H. lra.
  - pose proof (mixing_length_flux_pos k_B k_B_pos _ _ _ _ _ _ alpha
                  Hpair Halpha T_ip1) as Hpos.
    exists (mixing_length_flux k_B T_i T_ip1 p_i p_ip1 g m_bar n_dof alpha).
    split; [exact (convective_flux_unstable k_B k_B_pos _ _ _ _ _ _ alpha
                     Hpair T_ip1 Hunstable) | ].
    apply Hiff in Hunstable.
    split; [lra | ].
    split; [split; lra | lra].
Qed.

End LayerPairFacts.

Lemma rho_p_hydrostatic_witness :
  exists rho dz : R,
    rho_p ex_k_B 1000001 1000000 1000 10 ex_m_bar = real rho /\
    delta_z_i ex_k_B 1000 1000001 1000000 10 ex_m_bar = real dz /\
    0 < rho /\ rho * 10 * dz = 1000001 - 1000000 /\
    rho = (1000001 - 1000000) * ex_m_bar
          / (ex_k_B * 1000 * ln (1000001 / 1000000)) /\
    forall g' : R,
      0 < g' -> rho_p ex_k_B 1000001 1000000 1000 g' ex_m_bar = real rho.
Proof.
  exact (rho_p_hydrostatic ex_k_B ex_k_B_pos _ _ _ _ _ _ ex_layer_pair).
Defined.

Lemma convection_criterion_witness :
  exists F : R,
    convective_flux ex_k_B 1000 1000 1000001 1000000 10 ex_m_bar 5 1 = real F /\
    0 <= F /\
    (F = 0 <->
     1000 - 1000 <= 2 * 1000 * ln (1000001 / 1000000) / (2 + 5)) /\
    (1000 <= 1000 -> F = 0).
Proof.
  apply (convection_criterion ex_k_B ex_k_B_pos _ _ _ _ _ _ ex_layer_pair
           1000 1).
  lra.
Defined.

Section UpdateFacts.

Variables k_B sigma_sb : R.
Hypothesis k_B_pos : 0 < k_B.
Hypothesis sigma_sb_pos : 0 < sigma_sb.

Variables T_i p_i p_ip1 g m_bar n_dof : R.
Hypothesis Hpair : layer_pair T_i p_i p_ip1 g m_bar n_dof.

Lemma f_i_pre_value_pos (delta_F : R) : 0 < f_i_pre_value delta_F.
Proof.
  unfold f_i_pre_value. destruct (Req_dec_T delta_F 0); [lra | ].
  apply Rdiv_lt_0_compat; [lra | apply Rpower_pos].
Qed.

Lemma dt_capped_le_radiative (T_ip1 : R) :
  dt_capped k_B sigma_sb p_i p_ip1 T_i T_ip1 g m_bar n_dof
  <= dt_radiative_value k_B sigma_sb p_i T_i g m_bar n_dof.
Proof.
  unfold dt_capped. cbv zeta.
  destruct (Rlt_dec 0 _); [apply Rmin_l | lra].
Qed.

(** X15. The timestep of a layer is a positive finite number, and it never
    exceeds the radiative timescale times the pre-factor; with a zero flux
    divergence it never exceeds the radiative timescale itself. *)
Theorem delta_t_i_positive (T_ip1 delta_F_i_dz : R) :
  exists dt dz : R,
    delta_t_i k_B sigma_sb p_i p_ip1 T_i T_ip1 delta_F_i_dz g m_bar n_dof
    = real dt /\
    delta_z_i k_B T_i p_i p_ip1 g m_bar = real dz /\
    0 < dt /\
    dt <= f_i_pre_value (delta_F_i_dz * dz) *
          (cp_value k_B m_bar n_dof * p_i / sigma_sb / g / T_i ^ 3) /\
    (delta_F_i_dz = 0 ->
     dt <= cp_value k_B m_bar n_dof * p_i / sigma_sb / g / T_i ^ 3).
Proof.
  eexists _, _.
  split; [exact (delta_t_i_real k_B sigma_sb k_B_pos sigma_sb_pos
                   _ _ _ T_ip1 delta_F_i_dz _ _ _ Hpair) | ].
  split; [exact (delta_z_i_real k_B _ _ _ _ _ _ Hpair) | ].
  pose proof (f_i_pre_value_pos
                (delta_F_i_dz * dz_value k_B T_i p_i p_ip1 g m_bar)) as Hf.
  pose proof (dt_capped_pos k_B sigma_sb k_B_pos sigma_sb_pos
                _ _ _ T_ip1 _ _ _ Hpair) as Hcap.
  pose proof (dt_capped_le_radiative T_ip1) as Hle.
  unfold dt_radiative_value in Hle.
  split; [now apply Rmult_lt_0_compat | ].
  split.
  - apply Rmult_le_compat_l; [lra | exact Hle].
  - intros ->. rewrite Rmult_0_l. unfold f_i_pre_value.
    destruct (Req_dec_T 0 0) as [_ | n]; [lra | now contradiction n].
Qed.

Lemma delta_temperature_real (div dt : R) :
  delta_temperature k_B div p_i p_ip1 T_i dt g m_bar n_dof =
  real (1 / rho_value k_B T_i p_i p_ip1 g m_bar / cp_value k_B m_bar n_dof
        * div * dt).
Proof.
  pose proof (rho_value_pos k_B k_B_pos _ _ _ _ _ _ Hpair) as Hrho.
  pose proof (cp_value_pos k_B k_B_pos _ _ _ _ _ _ Hpair) as Hcp.
  unfold delta_temperature.
  rewrite (rho_p_real k_B k_B_pos _ _ _ _ _ _ Hpair).
  rewrite (c_p_real k_B _ _ _ _ _ _ Hpair).
  rewrite fdiv_real by lra. rewrite fdiv_real by lra.
  reflexivity.
Qed.



End UpdateFacts.

Lemma delta_t_i_positive_witness :
  exists dt dz : R,
    delta_t_i ex_k_B ex_sigma_sb 1000001 1000000 1000 999 0 10 ex_m_bar 5
    = real dt /\
    delta_z_i ex_k_B 1000 1000001 1000000 10 ex_m_bar = real dz /\
    0 < dt /\
    dt <= f_i_pre_value (0 * dz) *
          (cp_value ex_k_B ex_m_bar 5 * 1000001 / ex_sigma_sb / 10
           / 1000 ^ 3) /\
    (0 = 0 ->
     dt <= cp_value ex_k_B ex_m_bar 5 * 1000001 / ex_sigma_sb / 10
           / 1000 ^ 3).
Proof.
  exact (delta_t_i_positive ex_k_B ex_sigma_sb ex_k_B_pos ex_sigma_sb_pos
           _ _ _ _ _ _ ex_layer_pair 999 0).
Defined.



(** ** The emission driver, continued *)

(** Two loops over the same range, step by step. *)
Lemma fori_loop_steps2 {A : Type} (P : nat -> A -> A -> Prop) (lower : nat)
    (body1 body2 : nat -> A -> A) (init1 init2 : A) (k : nat) :
  P lower init1 init2 ->
  (forall i a b, (lower <= i < lower + k)%nat ->
                 P i a b -> P (S i) (body1 i a) (body2 i b)) ->
  P (lower + k)%nat
    (foldl (fun val i => body1 i val) init1 (seq lower k))
    (foldl (fun val i => body2 i val) init2 (seq lower k)).
Proof.
  intros Hinit. induction k as [ | k IH]; intros Hstep.
  - now rewrite Nat.add_0_r.
  - rewrite seq_S, !foldl_app. cbn [foldl].
    replace (lower + S k)%nat with (S (lower + k)) by lia.
    apply Hstep; [lia | ]. apply IH.
    intros i a b Hi. apply Hstep. lia.
Qed.

(** A loop only depends on its body within its range. *)
Lemma fori_loop_ext {A : Type} (lower upper : nat)
    (body1 body2 : nat -> A -> A) (init : A) :
  (forall i a, (lower <= i < upper)%nat -> body1 i a = body2 i a) ->
  fori_loop lower upper body1 init = fori_loop lower upper body2 init.
Proof.
  intros Hext. unfold fori_loop.
  apply (fori_loop_steps2 (fun _ a b => a = b)); [reflexivity | ].
  intros i a b Hi ->. apply Hext. lia.
Qed.

Lemma getc_tail {A : Type} (d x : A) (a : list A) (i : nat) :
  a <> [] -> (1 <= i)%nat -> getc d (x :: a) i = getc d a (i - 1).
Proof.
  intros Ha Hi. unfold getc.
  assert (0 < length a)%nat by (destruct a; [congruence | cbn; lia]).
  cbn [length].
  replace (i `min` (S (length a) - 1))%nat
    with (S ((i - 1) `min` (length a - 1)))%nat by lia.
  reflexivity.
Qed.

(** X18. [emit] never reads the pressure of the bottom layer: the loop
    starts at index 1, and two pressure grids that differ at index 0 only
    give the same flux field. *)
Theorem emit_ignores_bottom_pressure (interp : R -> list R -> list R -> R)
    (offline_opacities : list (list (list R)))
    (temperatures above lam F_TOA : list R) (g : R)
    (opacity_grid_temperatures : list R) (p_0 p_0' : R) :
  emit interp offline_opacities temperatures (p_0 :: above) lam F_TOA g
    opacity_grid_temperatures =
  emit interp offline_opacities temperatures (p_0' :: above) lam F_TOA g
    opacity_grid_temperatures.
Proof.
  unfold emit. cbv zeta. cbn [length].
  rewrite (fori_loop_ext 1 (S (length above))
             (body_fun interp offline_opacities temperatures (p_0 :: above)
                lam g opacity_grid_temperatures)
             (body_fun interp offline_opacities temperatures (p_0' :: above)
                lam g opacity_grid_temperatures)); [reflexivity | ].
  intros i a Hi.
  assert (Ha : above <> []) by (intros ->; cbn in Hi; lia).
  unfold body_fun. cbv zeta.
  now rewrite !(getc_tail 0 p_0), !(getc_tail 0 p_0') by (exact Ha || lia).
Qed.

(** X19. The opacity of every layer is interpolated at the temperature of
    the bottom layer: [kappa_interp] keeps column 0 of the interpolated
    table, whatever the layer index and the other temperatures are. *)
Theorem kappa_interp_bottom_temperature
    (interp : R -> list R -> list R -> R)
    (offline_opacities : list (list (list R)))
    (T_0 : R) (above lam opacity_grid_temperatures : list R) (i : nat) :
  kappa_interp interp offline_opacities (T_0 :: above) lam
    opacity_grid_temperatures i =
  map (fun j => real (interp T_0 opacity_grid_temperatures
                        (op offline_opacities i j)))
    (seq 0 (length lam)).
Proof.
  unfold kappa_interp. apply map_ext. intros j.
  unfold outer, getc. cbn [map length].
  rewrite Nat.min_0_l. reflexivity.
Qed.



Section EmitReach.

Variable interp : R -> list R -> list R -> R.
Variable offline_opacities : list (list (list R)).
Variables temperatures pressures lam : list R.
Variable g : R.
Variable opacity_grid_temperatures : list R.

Let n_layers : nat := length pressures.
Let n_wavelengths : nat := length lam.

Let step : nat -> list (list fl) -> list (list fl) -> list fl * list fl :=
  layer_step interp offline_opacities temperatures pressures lam g
    opacity_grid_temperatures.

Let body : nat -> list (list fl) -> list (list fl) :=
  body_fun interp offline_opacities temperatures pressures lam g
    opacity_grid_temperatures.

(** The bottom row of [fluxes_down] is never written. *)
Lemma emit_down_bottom (F_TOA : list R) :
  (2 <= n_layers)%nat ->
  snd (emit interp offline_opacities temperatures pressures lam F_TOA g
         opacity_grid_temperatures) !! 0%nat =
  Some (replicate n_wavelengths (real 0)).
Proof.
  intros Hn.
  destruct (emit_unstack interp offline_opacities temperatures pressures lam
              F_TOA g opacity_grid_temperatures
              (fun _ down =>
                 down !! 0%nat = Some (replicate n_wavelengths (real 0))))
    as (up & down & -> & _ & _ & _ & Hdown).
  - fold n_layers n_wavelengths.
    rewrite list_lookup_insert_ne by lia.
    apply lookup_replicate_2. lia.
  - intros i up down Hi _ _ _ Hdown.
    now rewrite list_lookup_insert_ne by lia.
  - exact Hdown.
Qed.

Hypothesis g_nonzero : g <> 0.
Hypothesis lam_nonzero : Forall (fun l => l <> 0) lam.
Hypothesis temperatures_length : length temperatures = length pressures.

Lemma finite_fluxes_init (F_TOA : list R) :
  length F_TOA = length lam ->
  finite_fluxes lam (zeros n_layers n_wavelengths) /\
  finite_fluxes lam (<[(n_layers - 1)%nat := map real F_TOA]>
                   (zeros n_layers n_wavelengths)).
Proof.
  intros HF.
  assert (Hzeros : finite_fluxes lam (zeros n_layers n_wavelengths)).
  { apply Forall_replicate. split; [apply length_replicate | ].
    apply Forall_replicate. now eexists. }
  split; [exact Hzeros | ].
  apply Forall_insert; [exact Hzeros | ].
  split; [now rewrite length_map | ].
  apply Forall_fmap, Forall_true. intros r. now eexists.
Qed.

Lemma finite_fluxes_getc (a : list (list fl)) (i : nat) :
  a <> [] -> finite_fluxes lam a -> finite_row n_wavelengths (getc [] a i).
Proof.
  intros Ha Hfin.
  assert (Hlen : (0 < length a)%nat) by (destruct a; [congruence | cbn; lia]).
  destruct (lookup_lt_is_Some_2 a (i `min` (length a - 1))%nat) as [row Hrow];
    [lia | ].
  unfold getc. rewrite Hrow. exact (Forall_lookup_1 _ _ _ _ Hfin Hrow).
Qed.

Lemma finite_fluxes_step (i : nat) (up down : list (list fl)) :
  up <> [] -> down <> [] ->
  finite_fluxes lam up -> finite_fluxes lam down ->
  finite_fluxes lam (<[(i + 1)%nat := fst (step i up down)]> up) /\
  finite_fluxes lam (<[i := snd (step i up down)]> down).
Proof.
  intros Hup_ne Hdown_ne Hup Hdown.
  destruct (step_finite interp offline_opacities temperatures pressures lam
              lam g opacity_grid_temperatures g_nonzero lam_nonzero eq_refl
              temperatures_length i up down) as [H1 H2];
    [now apply finite_fluxes_getc | now apply finite_fluxes_getc | ].
  split; now apply Forall_insert.
Qed.

(** Without scattering the upward row of a step does not depend on the
    downward row it reads. *)
Lemma step_up_independent (i : nat) (up down1 down2 : list (list fl)) :
  finite_row n_wavelengths (getc [] up i) ->
  finite_row n_wavelengths (getc [] down1 (i + 1)) ->
  finite_row n_wavelengths (getc [] down2 (i + 1)) ->
  fst (step i up down1) = fst (step i up down2).
Proof.
  intros [Hlen_up Hup] [Hlen1 Hdown1] [Hlen2 Hdown2].
  destruct (length_layer_step interp offline_opacities temperatures pressures
              lam g opacity_grid_temperatures i up down1) as [Hl1 _].
  destruct (length_layer_step interp offline_opacities temperatures pressures
              lam g opacity_grid_temperatures i up down2) as [Hl2 _].
  fold step in Hl1, Hl2.
  apply list_eq. intros j.
  destruct (decide (j < n_wavelengths)%nat) as [Hj | Hj].
  - destruct (step_elem interp offline_opacities temperatures pressures lam g
                opacity_grid_temperatures i j up down1 Hj) as [E1 _].
    destruct (step_elem interp offline_opacities temperatures pressures lam g
                opacity_grid_temperatures i j up down2 Hj) as [E2 _].
    fold step in E1, E2. rewrite E1, E2. f_equal.
    destruct (elem_lam lam lam_nonzero j Hj) as (l & -> & Hl).
    destruct (elem_delta_tau interp offline_opacities temperatures pressures
                lam g opacity_grid_temperatures g_nonzero i j Hj)
      as (kappa_i & ->).
    destruct (elem_is_real _ j Hup) as [u ->]; [lia | ].
    destruct (elem_is_real _ j Hdown1) as [d1 ->]; [lia | ].
    destruct (elem_is_real _ j Hdown2) as [d2 ->]; [lia | ].
    now rewrite !propagate_fluxes_nonscattering by exact Hl.
  - rewrite !lookup_ge_None_2; [reflexivity | | ]; lia.
Qed.

(** The step reads [fluxes_down] at one row only. *)
Lemma step_reads_one_row (i : nat) (up down1 down2 : list (list fl)) :
  getc [] down1 (i + 1) = getc [] down2 (i + 1) ->
  step i up down1 = step i up down2.
Proof.
  intros H. unfold step, layer_step. now rewrite H.
Qed.

Lemma same_below_init (F_TOA F_TOA' : list R) :
  length F_TOA = length lam -> length F_TOA' = length lam ->
  same_below pressures lam 1
    (zeros n_layers n_wavelengths ++
     <[(n_layers - 1)%nat := map real F_TOA]> (zeros n_layers n_wavelengths))
    (zeros n_layers n_wavelengths ++
     <[(n_layers - 1)%nat := map real F_TOA']> (zeros n_layers n_wavelengths)).
Proof.
  intros HF HF'.
  destruct (finite_fluxes_init F_TOA HF) as [Hz H1].
  destruct (finite_fluxes_init F_TOA' HF') as [_ H2].
  eexists _, _, _. split; [reflexivity | ]. split; [reflexivity | ].
  rewrite !length_insert, length_zeros.
  repeat (split; [reflexivity || assumption | ]).
  intros k Hk. now rewrite !list_lookup_insert_ne by lia.
Qed.

Lemma same_below_step (i : nat) (a b : list (list fl)) :
  (1 <= i < n_layers)%nat ->
  same_below pressures lam i a b ->
  same_below pressures lam (S i) (body i a) (body i b).
Proof.
  intros Hi (up & down1 & down2 & -> & -> & Hup & Hd1 & Hd2
             & Hfin_up & Hfin1 & Hfin2 & Hsame).
  assert (Hup_ne : up <> []) by (intros ->; cbn in Hup; lia).
  assert (Hd1_ne : down1 <> []) by (intros ->; cbn in Hd1; lia).
  assert (Hd2_ne : down2 <> []) by (intros ->; cbn in Hd2; lia).
  destruct (finite_fluxes_step i up down1) as [Hfu1 Hfd1]; try assumption.
  destruct (finite_fluxes_step i up down2) as [_ Hfd2]; try assumption.
  exists (<[(i + 1)%nat := fst (step i up down1)]> up),
    (<[i := snd (step i up down1)]> down1),
    (<[i := snd (step i up down2)]> down2).
  unfold body.
  rewrite !body_fun_stack by congruence. fold step.
  rewrite (step_up_independent i up down2 down1)
    by now apply finite_fluxes_getc.
  rewrite !length_insert.
  repeat (split; [reflexivity || assumption | ]).
  intros k Hk.
  destruct (decide (k = i)) as [-> | Hne].
  - rewrite !list_lookup_insert_eq by lia. f_equal. f_equal.
    apply step_reads_one_row.
    assert (Hrow : down1 !! (i + 1)%nat = down2 !! (i + 1)%nat)
      by (apply Hsame; lia).
    destruct (lookup_lt_is_Some_2 down1 (i + 1)) as [row Hrow1]; [lia | ].
    rewrite (getc_lookup _ _ _ _ Hrow1).
    rewrite Hrow in Hrow1. now rewrite (getc_lookup _ _ _ _ Hrow1).
  - rewrite !list_lookup_insert_ne by congruence. apply Hsame. lia.
Qed.

Lemma emit_same_below (F_TOA F_TOA' : list R) :
  length F_TOA = length lam -> length F_TOA' = length lam ->
  fst (emit interp offline_opacities temperatures pressures lam F_TOA g
         opacity_grid_temperatures) =
  fst (emit interp offline_opacities temperatures pressures lam F_TOA' g
         opacity_grid_temperatures) /\
  forall k, (k + 2 < n_layers)%nat ->
    snd (emit interp offline_opacities temperatures pressures lam F_TOA g
           opacity_grid_temperatures) !! k =
    snd (emit interp offline_opacities temperatures pressures lam F_TOA' g
           opacity_grid_temperatures) !! k.
Proof.
  intros HF HF'. unfold emit, fori_loop. cbv zeta.
  fold n_layers n_wavelengths body.
  pose proof (fori_loop_steps2 (same_below pressures lam) 1 body body _ _
                (n_layers - 1)
                (same_below_init F_TOA F_TOA' HF HF')) as Hloop.
  destruct Hloop as (up & down1 & down2 & -> & -> & Hup & Hd1 & Hd2
                     & _ & _ & _ & Hsame).
  { intros i a b Hi. apply same_below_step. lia. }
  destruct (split_stack up down1) as [-> ->]; [congruence | ].
  destruct (split_stack up down2) as [-> ->]; [congruence | ].
  cbn [fst snd]. split; [reflexivity | ].
  intros k Hk. apply Hsame. lia.
Qed.

(** X22. With two layers or more the [flux_down] row of the bottom layer is
    zero in what [emit] returns: the loop writes [flux_down] at its own
    index, which starts at 1, so that no downward flux arrives at the
    bottom. *)
Theorem emit_flux_down_bottom_zero (F_TOA : list R) :
  (2 <= length pressures)%nat ->
  snd (emit interp offline_opacities temperatures pressures lam F_TOA g
         opacity_grid_temperatures) !! 0%nat =
  Some (replicate (length lam) (real 0)).
Proof. exact (emit_down_bottom F_TOA). Qed.

(** X23. The incident flux reaches the two top rows of [flux_down] only:
    two calls that differ in [F_TOA] alone return the same [flux_up], and
    the same [flux_down] at every layer below the top two. The loop runs
    upwards, so that each layer reads the row above it before that row is
    computed, and without scattering no downward flux is turned upwards. *)
Theorem emit_incident_flux_reach (F_TOA F_TOA' : list R) :
  (1 <= length pressures)%nat ->
  length F_TOA = length lam -> length F_TOA' = length lam ->
  fst (emit interp offline_opacities temperatures pressures lam F_TOA g
         opacity_grid_temperatures) =
  fst (emit interp offline_opacities temperatures pressures lam F_TOA' g
         opacity_grid_temperatures) /\
  forall k, (k + 2 < length pressures)%nat ->
    snd (emit interp offline_opacities temperatures pressures lam F_TOA g
           opacity_grid_temperatures) !! k =
    snd (emit interp offline_opacities temperatures pressures lam F_TOA' g
           opacity_grid_temperatures) !! k.
Proof. intros _. exact (emit_same_below F_TOA F_TOA'). Qed.

End EmitReach.

(** ** Bolometric flux *)

Lemma trapezoids_cons (y_0 y_1 x_0 x_1 : R) (y x : list R) :
  trapezoids (y_0 :: y_1 :: y) (x_0 :: x_1 :: x) =
  (x_1 - x_0) * (y_1 + y_0) + trapezoids (y_1 :: y) (x_1 :: x).
Proof. reflexivity. Qed.

Lemma fsum_trapezoids (y x : list R) :
  fsum (zip_with fmul (diff (map real x))
          (zip_with fadd (tail (map real y)) (map real y))) =
  real (trapezoids y x).
Proof.
  revert x. induction y as [ | y_0 y' IH]; intros x.
  - destruct x as [ | x_0 [ | x_1 x']]; reflexivity.
  - destruct y' as [ | y_1 ys].
    + destruct x as [ | x_0 [ | x_1 x']]; reflexivity.
    + destruct x as [ | x_0 [ | x_1 x']]; try reflexivity.
      specialize (IH (x_1 :: x')). rewrite trapezoids_cons.
      unfold diff, fsum in IH |- *.
      cbn [map tail zip_with foldr] in IH |- *.
      rewrite IH. reflexivity.
Qed.

Lemma bolometric_flux_real (flux lam : list R) :
  bolometric_flux (map real flux) (map real lam) =
  real (0.5 * trapezoids flux lam).
Proof.
  unfold bolometric_flux, trapz. now rewrite fsum_trapezoids.
Qed.

Lemma trapezoids_nonneg (y x : list R) :
  Forall (fun y_k => 0 <= y_k) y -> nondecreasing x -> 0 <= trapezoids y x.
Proof.
  revert x. induction y as [ | y_0 y' IH]; intros x Hy Hx; [cbn; lra | ].
  destruct y' as [ | y_1 ys]; [cbn; lra | ].
  destruct x as [ | x_0 [ | x_1 x']]; try (cbn; lra).
  rewrite trapezoids_cons. destruct Hx as [Hle Hx].
  apply Forall_cons in Hy as [H0 Hy].
  pose proof Hy as Hy'. apply Forall_cons in Hy' as [H1 _].
  specialize (IH (x_1 :: x') Hy Hx).
  assert (0 <= (x_1 - x_0) * (y_1 + y_0)) by (apply Rmult_le_pos; lra).
  lra.
Qed.

Lemma last_default (d d' x_1 : R) (x : list R) :
  List.last (x_1 :: x) d = List.last (x_1 :: x) d'.
Proof.
  revert x_1. induction x as [ | x_2 xs IH]; intros x_1; [reflexivity | ].
  exact (IH x_2).
Qed.

Lemma trapezoids_constant (c x_0 : R) (x : list R) :
  trapezoids (replicate (S (length x)) c) (x_0 :: x) =
  2 * c * (List.last (x_0 :: x) x_0 - x_0).
Proof.
  revert x_0. induction x as [ | x_1 x' IH]; intros x_0; [cbn; lra | ].
  cbn [length replicate] in IH |- *.
  rewrite trapezoids_cons, IH.
  change (List.last (x_0 :: x_1 :: x') x_0) with (List.last (x_1 :: x') x_0).
  rewrite (last_default x_0 x_1). lra.
Qed.

(** X24. The bolometric flux of a finite spectrum is finite; it is not
    negative for a spectrum that is not negative on a wavelength grid that
    does not decrease; and for a flat spectrum [c] it is [c] times the
    width of the grid. *)
Theorem bolometric_flux_trapezoid :
  (forall flux lam : list R,
      is_real (bolometric_flux (map real flux) (map real lam))) /\
  (forall flux lam : list R,
      Forall (fun F => 0 <= F) flux -> nondecreasing lam ->
      exists F_bol : R,
        bolometric_flux (map real flux) (map real lam) = real F_bol /\
        0 <= F_bol) /\
  (forall (c lam_0 : R) (lam : list R),
      bolometric_flux (map real (replicate (S (length lam)) c))
        (map real (lam_0 :: lam)) =
      real (c * (List.last (lam_0 :: lam) lam_0 - lam_0))).
Proof.
  split; [ | split].
  - intros flux lam. rewrite bolometric_flux_real. now eexists.
  - intros flux lam Hflux Hlam. eexists.
    split; [apply bolometric_flux_real | ].
    pose proof (trapezoids_nonneg flux lam Hflux Hlam). lra.
  - intros c lam_0 lam. rewrite bolometric_flux_real. apply real_eq.
    rewrite trapezoids_constant. lra.
Qed.

Lemma bolometric_flux_trapezoid_witness :
  exists F_bol : R,
    bolometric_flux (map real [1; 3; 2]) (map real [1; 2; 4]) = real F_bol /\
    0 <= F_bol.
Proof.
  apply (proj1 (proj2 bolometric_flux_trapezoid) [1; 3; 2] [1; 2; 4]).
  - repeat constructor; lra.
  - cbn. lra.
Defined.

(** ** The thermal coefficient and the mixing-length parameter *)

(** X25. The coefficient [pi] of the thermal terms is [PI] for every albedo
    up to the threshold 0.1, where [E] is 1, and it is zero for a purely
    scattering layer ([omega_0 = 1]) wherever [E] is not 1. *)
Theorem pi_limits (omega_0 g_0 : R) :
  (0 <= omega_0 <= 0.1 -> pi omega_0 g_0 = real PI) /\
  (E_value 1 g_0 <> 1 -> pi 1 g_0 = real 0).
Proof.
  split.
  - intros Hw.
    assert (HE : E_value omega_0 g_0 = 1).
    { unfold E_value. destruct (Rlt_dec 0.1 omega_0); [lra | reflexivity]. }
    rewrite pi_real; rewrite HE; [ | lra].
    apply real_eq. field. lra.
  - intros HE. rewrite pi_real by lra. apply real_eq.
    unfold Rdiv. ring.
Qed.

Lemma pi_limits_witness : pi 0.05 0.3 = real PI /\ pi 1 0 = real 0.
Proof.
  split.
  - apply (proj1 (pi_limits 0.05 0.3)). lra.
  - apply (proj2 (pi_limits 0 0)). unfold E_value.
    destruct (Rlt_dec 0.1 1); lra.
Defined.

(** X26. The convective flux of a layer pair is quadratic in the
    mixing-length parameter: with the parameter [alpha] it is [alpha^2]
    times the flux with the parameter 1. *)
Theorem convective_flux_quadratic_in_alpha
    (k_B T_i T_ip1 p_i p_ip1 g m_bar n_dof : R) :
  0 < k_B -> layer_pair T_i p_i p_ip1 g m_bar n_dof ->
  exists F : R,
    convective_flux k_B T_i T_ip1 p_i p_ip1 g m_bar n_dof 1 = real F /\
    forall alpha : R,
      convective_flux k_B T_i T_ip1 p_i p_ip1 g m_bar n_dof alpha =
      real (alpha ^ 2 * F).
Proof.
  intros Hk Hpair.
  destruct (Rle_lt_dec (Gamma k_B T_i T_ip1 p_i p_ip1 g m_bar)
              (Gamma_ad k_B g m_bar n_dof)) as [Hstable | Hunstable].
  - exists 0. split.
    + exact (convective_flux_stable k_B Hk _ _ _ _ _ _ 1 Hpair T_ip1 Hstable).
    + intros alpha.
      rewrite (convective_flux_stable k_B Hk _ _ _ _ _ _ alpha Hpair T_ip1
                 Hstable).
      apply real_eq. ring.
  - eexists. split.
    + exact (convective_flux_unstable k_B Hk _ _ _ _ _ _ 1 Hpair T_ip1
               Hunstable).
    + intros alpha.
      rewrite (convective_flux_unstable k_B Hk _ _ _ _ _ _ alpha Hpair T_ip1
                 Hunstable).
      apply real_eq. destruct Hpair as (_ & _ & Hg & Hm & _).
      unfold mixing_length_flux, lmix_value. field. split; lra.
Qed.

Lemma convective_flux_quadratic_in_alpha_witness :
  exists F : R,
    convective_flux ex_k_B 1000 999 1000001 1000000 10 ex_m_bar 5 1 = real F /\
    forall alpha : R,
      convective_flux ex_k_B 1000 999 1000001 1000000 10 ex_m_bar 5 alpha =
      real (alpha ^ 2 * F).
Proof.
  exact (convective_flux_quadratic_in_alpha ex_k_B 1000 999 1000001 1000000
           10 ex_m_bar 5 ex_k_B_pos ex_layer_pair).
Defined.

(** *** A concrete column, continued *)

Lemma emit_flux_down_bottom_zero_witness :
  snd (emit (fun _ _ _ => 1) [[[1]]; [[1]]; [[1]]] [300; 250; 200] [3; 2; 1]
         [1; 2] [5; 6] 10 [250]) !! 0%nat =
  Some [real 0; real 0].
Proof.
  apply (emit_flux_down_bottom_zero (fun _ _ _ => 1) [[[1]]; [[1]]; [[1]]]
           [300; 250; 200] [3; 2; 1] [1; 2] 10 [250] [5; 6]).
  cbn. lia.
Defined.

Lemma emit_incident_flux_reach_witness :
  fst (emit (fun _ _ _ => 1) [[[1]]; [[1]]; [[1]]] [300; 250; 200] [3; 2; 1]
         [1; 2] [5; 6] 10 [250]) =
  fst (emit (fun _ _ _ => 1) [[[1]]; [[1]]; [[1]]] [300; 250; 200] [3; 2; 1]
         [1; 2] [0; 0] 10 [250]).
Proof.
  apply (emit_incident_flux_reach (fun _ _ _ => 1) [[[1]]; [[1]]; [[1]]]
           [300; 250; 200] [3; 2; 1] [1; 2] 10 [250]).
  - lra.
  - repeat constructor; lra.
  - reflexivity.
  - cbn. lia.
  - reflexivity.
  - reflexivity.
Defined.
